(** * extract_kernel.py: the ISO 9660 kernel extractor, embedded in Rocq

    A shallow embedding of [src/extract_kernel.py]:
    - [parse_iso9660_primary_volume_descriptor]  (volume descriptor scan),
    - [parse_directory_record]                   (directory record decoding),
    - [find_file_in_path]                        (path resolution),
    - [extract_file]                             (extent read),
    - the signature scan at the end of [main]    (fallback).

    Python [bytes] are lists of [byte], Python [int]s are [Z], exceptions
    are an explicit [Raise] outcome, and the two [while] loops are run with
    fuel ([None] means the fuel ran out, nothing else does).  Console output
    ([print]) has no influence on any returned value and is left out. *)

From Stdlib Require Import ZArith List Bool Lia String Ascii.
From Stdlib Require Import Strings.Byte.
Import ListNotations.
Local Open Scope Z_scope.

(** ** Python values and exceptions *)

Definition bytes := list byte.

Definition byte_val (b : byte) : Z := Z.of_N (Byte.to_N b).

(** [len(x)] *)
Definition len {A : Type} (l : list A) : Z := Z.of_nat (List.length l).

(** The exceptions the embedded code can raise. *)
Inductive exn : Type :=
| IndexError
| StructError          (* struct.error *)
| UnicodeDecodeError
| ZeroDivisionError
| OSError.             (* [open] refusing a path *)

Inductive result (A : Type) : Type :=
| Ret (a : A)
| Raise (e : exn).
Arguments Ret {A} a.
Arguments Raise {A} e.

Definition bind {A B : Type} (m : result A) (k : A -> result B) : result B :=
  match m with
  | Ret a => k a
  | Raise e => Raise e
  end.

Notation "x <- m ;; k" := (bind m (fun x => k))
  (at level 61, m at next level, right associativity).

(** An index of a slice, brought into [0, n] the way Python does it:
    a negative index counts from the end, and everything is clipped. *)
Definition clamp (i n : Z) : Z :=
  if i <? 0 then Z.max (i + n) 0 else Z.min i n.

(** [l[lo:hi]]: never raises, silently clips to what is there. *)
Definition pyslice {A : Type} (l : list A) (lo hi : Z) : list A :=
  let n := len l in
  let lo' := clamp lo n in
  let hi' := clamp hi n in
  firstn (Z.to_nat (hi' - lo')) (skipn (Z.to_nat lo') l).

(** [l[i]] on bytes: an [int] in [0, 255], or IndexError. *)
Definition pyindex (l : bytes) (i : Z) : result Z :=
  let j := if i <? 0 then i + len l else i in
  if (0 <=? j) && (j <? len l) then
    match nth_error l (Z.to_nat j) with
    | Some b => Ret (byte_val b)
    | None => Raise IndexError
    end
  else Raise IndexError.

(** [a % b]: the sign of the result follows the divisor, as [Z.modulo]. *)
Definition pymod (a b : Z) : result Z :=
  if b =? 0 then Raise ZeroDivisionError else Ret (a mod b).

(** Little-endian unsigned integer held in a byte string. *)
Definition le_uint (buf : bytes) : Z :=
  fold_right (fun b acc => byte_val b + 256 * acc) 0 buf.

(** [struct.unpack('<I', buf)[0]]: the buffer must hold exactly 4 bytes. *)
Definition unpack_I (buf : bytes) : result Z :=
  if len buf =? 4 then Ret (le_uint buf) else Raise StructError.

(** [struct.unpack('<H', buf)[0]]: the buffer must hold exactly 2 bytes. *)
Definition unpack_H (buf : bytes) : result Z :=
  if len buf =? 2 then Ret (le_uint buf) else Raise StructError.

Definition is_ascii (b : byte) : bool := byte_val b <? 128.

(** [buf.decode('ascii')] *)
Definition decode_ascii (buf : bytes) : result string :=
  if forallb is_ascii buf then Ret (string_of_list_byte buf)
  else Raise UnicodeDecodeError.

(** [str.isspace] on the characters an ASCII decode can produce. *)
Definition isspace (c : ascii) : bool :=
  let n := Z.of_N (N_of_ascii c) in
  ((9 <=? n) && (n <=? 13)) || ((28 <=? n) && (n <=? 32)).

Fixpoint lstrip (s : string) : string :=
  match s with
  | EmptyString => EmptyString
  | String c s' => if isspace c then lstrip s' else s
  end.

Fixpoint rstrip (s : string) : string :=
  match s with
  | EmptyString => EmptyString
  | String c s' =>
      match rstrip s' with
      | EmptyString => if isspace c then EmptyString else String c EmptyString
      | r => String c r
      end
  end.

(** [s.strip()]: white space goes at both ends. *)
Definition strip (s : string) : string := lstrip (rstrip s).

(** ** parse_directory_record *)

(** The dict built by [parse_directory_record], key by key:
    'name', 'extent', 'length', 'is_dir', 'record'. *)
Record entry : Type := mk_entry {
  e_name : string;
  e_extent : Z;
  e_length : Z;
  e_is_dir : bool;
  e_record : bytes
}.

Definition zeros4 : bytes := [x00; x00; x00; x00].

Definition parse_directory_record (record_data : bytes)
  : result (option entry) :=
  if len record_data =? 0 then Ret None else
  b0 <- pyindex record_data 0 ;;
  if b0 =? 0 then Ret None else
  length <- pyindex record_data 0 ;;
  ext_attr_length <- pyindex record_data 1 ;;
  extent_location <- unpack_I (pyslice record_data 2 6 ++ zeros4) ;;
  data_length <- unpack_I (pyslice record_data 10 14 ++ zeros4) ;;
  name_length <- pyindex record_data 32 ;;
  raw_name <- decode_ascii (pyslice record_data 33 (33 + name_length)) ;;
  let name := strip raw_name in
  flags <- pyindex record_data 25 ;;
  let is_dir := negb (Z.land flags 2 =? 0) in
  Ret (Some {| e_name := name;
               e_extent := extent_location;
               e_length := data_length;
               e_is_dir := is_dir;
               e_record := pyslice record_data 0 length |}).

(** ** parse_iso9660_primary_volume_descriptor *)

(** What one turn of a [while] loop decides: go round again with a new
    offset, or leave the loop with a value. *)
Inductive ctl (A : Type) : Type :=
| Next (offset : Z)
| Stop (a : A).
Arguments Next {A} offset.
Arguments Stop {A} a.

(** Run a loop body [step] from [offset], at most [fuel] times. *)
Fixpoint run_loop {A : Type} (step : Z -> result (ctl A))
    (fuel : nat) (offset : Z) : option (result A) :=
  match fuel with
  | O => None
  | S fuel' =>
      match step offset with
      | Raise e => Some (Raise e)
      | Ret (Stop a) => Some (Ret a)
      | Ret (Next offset') => run_loop step fuel' offset'
      end
  end.

(** The body of [while True].  [Stop None] is the [break] at the
    terminator, after which the function returns [(None, None)];
    [Stop (Some (root_dir_record, logical_block_size))] is the [return]
    inside the loop. *)
Definition pvd_step (iso_data : bytes) (offset : Z)
  : result (ctl (option (bytes * Z))) :=
  let descriptor := pyslice iso_data offset (offset + 2048) in
  type_code <- pyindex descriptor 0 ;;
  if type_code =? 0 then Ret (Next (offset + 2048))
  else if type_code =? 1 then
    let pvd := descriptor in
    raw_system_id <- decode_ascii (pyslice pvd 8 40) ;;
    let system_id := strip raw_system_id in
    raw_volume_id <- decode_ascii (pyslice pvd 40 72) ;;
    let volume_id := strip raw_volume_id in
    volume_space_size <- unpack_I (pyslice pvd 80 84) ;;
    volume_set_size <- unpack_H (pyslice pvd 120 122) ;;
    volume_sequence_number <- unpack_H (pyslice pvd 124 126) ;;
    logical_block_size <- unpack_H (pyslice pvd 128 130) ;;
    path_table_size <- unpack_I (pyslice pvd 132 136) ;;
    let root_dir_record := pyslice pvd 156 190 in
    Ret (Stop (Some (root_dir_record, logical_block_size)))
  else if type_code =? 255 then Ret (Stop None)
  else Ret (Next (offset + 2048)).

(** The scan moves 2048 bytes forward each turn and stops with IndexError
    once past the end of the image, so one turn per byte of the image (and
    one more) is always enough fuel: see [pvd_scan_total]. *)
Definition parse_iso9660_primary_volume_descriptor (iso_data : bytes)
  : option (result (option (bytes * Z))) :=
  run_loop (pvd_step iso_data) (S (List.length iso_data)) 0x8000.

(** ** find_file_in_path *)

(** The body of [while offset < len(dir_data)].  [Stop (Some entry)] is the
    [break] with [found = True]; [Stop None] is the loop condition turning
    false with [found] still [False]. *)
Definition scan_step (dir_data : bytes) (block_size : Z) (component : string)
    (offset : Z) : result (ctl (option entry)) :=
  if offset <? len dir_data then
    record_length <- pyindex dir_data offset ;;
    if record_length =? 0 then
      r <- pymod offset block_size ;;
      let sector_remainder := block_size - r in
      if sector_remainder <? block_size
      then Ret (Next (offset + sector_remainder))
      else Ret (Next offset)
    else
      let record := pyslice dir_data offset (offset + record_length) in
      parsed <- parse_directory_record record ;;
      match parsed with
      | Some e =>
          if String.eqb (e_name e) component then Ret (Stop (Some e))
          else Ret (Next (offset + record_length))
      | None => Ret (Next (offset + record_length))
      end
  else Ret (Stop None).

(** The [for component in path_components] loop, with [current] as its
    state.  [current_path] is only ever appended to and is left out. *)
Fixpoint walk (fuel : nat) (iso_data : bytes) (block_size : Z)
    (path_components : list string) (current : entry)
  : option (result (option entry)) :=
  match path_components with
  | [] => Some (Ret (Some current))
  | component :: rest =>
      if negb (e_is_dir current) then Some (Ret None)
      else
        let extent_offset := e_extent current * block_size in
        let dir_data :=
          pyslice iso_data extent_offset (extent_offset + e_length current) in
        match run_loop (scan_step dir_data block_size component) fuel 0 with
        | None => None
        | Some (Raise e) => Some (Raise e)
        | Some (Ret None) => Some (Ret None)
        | Some (Ret (Some found)) => walk fuel iso_data block_size rest found
        end
  end.

(** [fuel] bounds the turns of each directory scan; the result is [None]
    only when a scan did not finish within [fuel] turns. *)
Definition find_file_in_path (fuel : nat) (iso_data : bytes)
    (root_record : entry) (block_size : Z) (path_components : list string)
  : option (result (option entry)) :=
  match path_components with
  | [] => Some (Ret None)
  | _ => walk fuel iso_data block_size path_components root_record
  end.

(** ** extract_file *)

(** The host's files: those written so far, the latest first, and the
    paths that [open(path, 'wb')] accepts. *)
Record filesystem : Type := mk_filesystem {
  files : list (string * bytes);
  openable : string -> bool
}.

Definition add_file (path : string) (data : bytes) (fs : filesystem)
  : filesystem :=
  {| files := (path, data) :: files fs; openable := openable fs |}.

(** [with open(path, 'wb') as f: f.write(data)]: [open] raises an OSError
    (FileNotFoundError, PermissionError, ...) on a path it cannot open. *)
Definition write_file (path : string) (data : bytes) (fs : filesystem)
  : result filesystem :=
  if openable fs path then Ret (add_file path data fs) else Raise OSError.

(** Returns [file_data] and leaves it written at [output_path]. *)
Definition extract_file (iso_data : bytes) (file_record : entry)
    (block_size : Z) (output_path : string) (fs : filesystem)
  : result (bytes * filesystem) :=
  let extent_offset := e_extent file_record * block_size in
  let file_data :=
    pyslice iso_data extent_offset (extent_offset + e_length file_record) in
  fs' <- write_file output_path file_data fs ;;
  Ret (file_data, fs').

(** ** The signature scan of [main] *)

Definition kernel_magic : bytes := [xb8; xc0; x07; x8e].

Definition window_size : Z := 20 * 1024 * 1024.

Fixpoint starts_with (pat l : bytes) : bool :=
  match pat, l with
  | [], _ => true
  | p :: pat', b :: l' => Byte.eqb p b && starts_with pat' l'
  | _ :: _, [] => false
  end.

Fixpoint find_from (l pat : bytes) (pos : Z) : Z :=
  if starts_with pat l then pos
  else match l with
       | [] => -1
       | _ :: l' => find_from l' pat (pos + 1)
       end.

(** [l.find(pat)]: the lowest offset at which [pat] occurs, or [-1]. *)
Definition bytes_find (l pat : bytes) : Z := find_from l pat 0.

(** The "brute force search" branch of [main]: [Some kernel_data] is what
    is written to [vmlinuz], [None] is the [return 1]. *)
Definition main_fallback_scan (iso_data : bytes) : option bytes :=
  let pos := bytes_find iso_data kernel_magic in
  if negb (pos =? -1)
  then Some (pyslice iso_data pos (pos + window_size))
  else None.

(** ** main *)

(** [main] as a function of the bytes read from [iso_path] and of the files
    written so far.  Reading the image and creating [output_dir] come first
    in the source and are taken to have succeeded. *)

Definition output_dir : string := "/tmp/debian_iso_extracted".

Definition possible_paths : list (list string) :=
  [ ["install.amd"; "vmlinuz"]; ["install"; "vmlinuz"];
    ["boot"; "vmlinuz"]; ["isolinux"; "vmlinuz"] ]%string.

Definition possible_initrd : list (list string) :=
  [ ["install.amd"; "initrd.gz"]; ["install"; "initrd.gz"];
    ["boot"; "initrd.gz"] ]%string.

(** [main] can also raise TypeError, when it subscripts [None]. *)
Inductive main_exn : Type :=
| Core (e : exn)
| TypeError.

Inductive main_result (A : Type) : Type :=
| MRet (a : A)
| MRaise (e : main_exn).
Arguments MRet {A} a.
Arguments MRaise {A} e.

(** How [main] ends: [return code], or an exception nobody catches. *)
Inductive outcome : Type :=
| Exit (code : Z)
| Uncaught (e : main_exn).

(** [find_file_in_path] as [main] calls it: [root_record] is whatever
    [parse_directory_record] returned, a dict or [None], and
    [current['is_dir']] on [None] raises TypeError. *)
Definition find_file_in_path_from (fuel : nat) (iso_data : bytes)
    (root_record : option entry) (block_size : Z)
    (path_components : list string) : option (main_result (option entry)) :=
  match root_record with
  | Some r =>
      match find_file_in_path fuel iso_data r block_size path_components with
      | None => None
      | Some (Ret found) => Some (MRet found)
      | Some (Raise e) => Some (MRaise (Core e))
      end
  | None =>
      match path_components with
      | [] => Some (MRet None)
      | _ :: _ => Some (MRaise TypeError)
      end
  end.

(** [for path in paths: record = find_file_in_path(...); if record: break],
    with [record] starting as [None]. *)
Fixpoint first_match (fuel : nat) (iso_data : bytes)
    (root_record : option entry) (block_size : Z)
    (paths : list (list string)) : option (main_result (option entry)) :=
  match paths with
  | [] => Some (MRet None)
  | path :: rest =>
      match find_file_in_path_from fuel iso_data root_record block_size path
      with
      | None => None
      | Some (MRaise e) => Some (MRaise e)
      | Some (MRet (Some record)) => Some (MRet (Some record))
      | Some (MRet None) =>
          first_match fuel iso_data root_record block_size rest
      end
  end.

(** The second half of [main]: the search for the initrd, then [return 0]. *)
Definition main_initrd (fuel : nat) (iso_data : bytes)
    (root_record : option entry) (block_size : Z) (fs : filesystem)
  : option (outcome * filesystem) :=
  match first_match fuel iso_data root_record block_size possible_initrd with
  | None => None
  | Some (MRaise e) => Some (Uncaught e, fs)
  | Some (MRet (Some initrd_record)) =>
      match extract_file iso_data initrd_record block_size
              (output_dir ++ "/initrd.gz")%string fs with
      | Raise e => Some (Uncaught (Core e), fs)
      | Ret (_, fs') => Some (Exit 0, fs')
      end
  | Some (MRet None) => Some (Exit 0, fs)
  end.

Definition main (fuel : nat) (iso_data : bytes) (fs : filesystem)
  : option (outcome * filesystem) :=
  match parse_iso9660_primary_volume_descriptor iso_data with
  | None => None
  | Some (Raise e) => Some (Uncaught (Core e), fs)
  | Some (Ret None) => Some (Exit 1, fs)
  | Some (Ret (Some (root_bytes, block_size))) =>
      if len root_bytes =? 0 then Some (Exit 1, fs)
      else
        match parse_directory_record root_bytes with
        | Raise e => Some (Uncaught (Core e), fs)
        | Ret root_record =>
            match first_match fuel iso_data root_record block_size
                    possible_paths with
            | None => None
            | Some (MRaise e) => Some (Uncaught e, fs)
            | Some (MRet None) =>
                match main_fallback_scan iso_data with
                | Some kernel_data =>
                    match write_file (output_dir ++ "/vmlinuz")%string
                            kernel_data fs with
                    | Raise e => Some (Uncaught (Core e), fs)
                    | Ret fs' =>
                        main_initrd fuel iso_data root_record block_size fs'
                    end
                | None => Some (Exit 1, fs)
                end
            | Some (MRet (Some kernel_record)) =>
                match extract_file iso_data kernel_record block_size
                        (output_dir ++ "/vmlinuz")%string fs with
                | Raise e => Some (Uncaught (Core e), fs)
                | Ret (_, fs') =>
                    main_initrd fuel iso_data root_record block_size fs'
                end
            end
        end
  end.

(** ** Fixtures *)

Definition zeros (n : Z) : bytes := repeat x00 (Z.to_nat n).

(** A 34-byte record: file "A", extent 1, 5 bytes. *)
Definition rec_file_A : bytes :=
  [ x22; x00;
    x01; x00; x00; x00;  x00; x00; x00; x01;
    x05; x00; x00; x00;  x00; x00; x00; x05;
    x7e; x0b; x03; x00; x00; x00; x00;
    x00; x00; x00;
    x01; x00; x00; x01;
    x01; x41 ].

(** A 38-byte record: directory "BOOT", extent 1, 2048 bytes. *)
Definition rec_dir_BOOT : bytes :=
  [ x26; x00;
    x01; x00; x00; x00;  x00; x00; x00; x01;
    x00; x08; x00; x00;  x00; x00; x08; x00;
    x7e; x0b; x03; x00; x00; x00; x00;
    x02; x00; x00;
    x01; x00; x00; x01;
    x04; x42; x4f; x4f; x54; x00 ].

Definition payload : bytes := [x68; x65; x6c; x6c; x6f].

(** Block 0: the root directory, holding the file "A"; block 1: its data. *)
Definition image_file : bytes :=
  rec_file_A ++ zeros (2048 - 34) ++ payload.

(** Block 0: the root directory, holding "BOOT"; block 1: the directory
    "BOOT", holding the file "A". *)
Definition image_tree : bytes :=
  rec_dir_BOOT ++ zeros (2048 - 38) ++ rec_file_A ++ zeros (2048 - 34).

Definition root_dir : entry :=
  {| e_name := ""; e_extent := 0; e_length := 2048;
     e_is_dir := true; e_record := [] |}.

(** A volume: 16 empty sectors, [sector] filled up to 2048 bytes, then a
    terminator sector. *)
Definition volume_with (sector : bytes) : bytes :=
  zeros 32768 ++ sector ++ zeros (2048 - len sector)
    ++ [xff] ++ zeros 2047.

(** A primary descriptor with block size 2048 and [rec_file_A] (of the
    right length) as its root record. *)
Definition pvd_sector (system_id0 : byte) : bytes :=
  [x01; x43; x44; x30; x30; x31; x01; x00; system_id0] ++ zeros 119
    ++ [x00; x08] ++ zeros 26 ++ rec_file_A.



(** A buffer with the signature at offset 1. *)
Definition image_magic : bytes := [x00] ++ kernel_magic ++ [x01].

(** A volume with a boot record before the primary descriptor: 16 empty
    sectors, a sector starting with 0, the primary descriptor, a
    terminator. *)
Definition volume_boot_then_primary : bytes :=
  zeros 32768 ++ zeros 2048 ++ pvd_sector x20 ++ zeros (2048 - 190)
    ++ [xff] ++ zeros 2047.

(** An image that ends one byte into its primary descriptor. *)
Definition volume_cut_short : bytes := zeros 32768 ++ [x01].


(** An image that ends 160 bytes into its primary descriptor, 4 bytes into
    the root record. *)
Definition volume_cut_in_root : bytes :=
  zeros 32768 ++ pyslice (pvd_sector x20) 0 160.

(** A disk with no file yet, on which every path can be opened. *)
Definition empty_disk : filesystem :=
  {| files := []; openable := fun _ => true |}.

(** A volume whose primary descriptor is followed, in the same sector, by
    the four signature bytes. *)
Definition volume_with_magic : bytes :=
  volume_with (pvd_sector x20 ++ kernel_magic).

(** * Properties *)

(** ** Lists, slices and indexing *)

Lemma len_nonneg {A : Type} (l : list A) : 0 <= len l.
Proof. unfold len. lia. Qed.

Lemma len_app {A : Type} (l1 l2 : list A) : len (l1 ++ l2) = len l1 + len l2.
Proof. unfold len. rewrite length_app. lia. Qed.

Lemma len_cons {A : Type} (a : A) (l : list A) : len (a :: l) = 1 + len l.
Proof. unfold len. cbn [List.length]. lia. Qed.

Lemma clamp_range (i n : Z) : 0 <= n -> 0 <= clamp i n <= n.
Proof. unfold clamp. destruct (i <? 0) eqn:E; lia. Qed.

Lemma clamp_nonneg (i n : Z) : 0 <= i -> clamp i n = Z.min i n.
Proof. unfold clamp. destruct (i <? 0) eqn:E; lia. Qed.

Lemma len_pyslice {A : Type} (l : list A) (lo hi : Z) :
  len (pyslice l lo hi) = Z.max 0 (clamp hi (len l) - clamp lo (len l)).
Proof.
  unfold pyslice.
  pose proof (clamp_range lo (len l) (len_nonneg l)).
  pose proof (clamp_range hi (len l) (len_nonneg l)).
  unfold len in *. rewrite length_firstn, length_skipn. lia.
Qed.

Lemma len_pyslice_inside {A : Type} (l : list A) (lo hi : Z) :
  0 <= lo <= hi -> hi <= len l -> len (pyslice l lo hi) = hi - lo.
Proof.
  intros. rewrite len_pyslice, !clamp_nonneg by lia. lia.
Qed.

Lemma byte_val_range (b : byte) : 0 <= byte_val b < 256.
Proof.
  unfold byte_val. pose proof (Byte.to_N_bounded b). lia.
Qed.

Lemma pyindex_nonneg (l : bytes) (i : Z) :
  0 <= i ->
  pyindex l i = match nth_error l (Z.to_nat i) with
                | Some b => Ret (byte_val b)
                | None => Raise IndexError
                end.
Proof.
  intros Hi. unfold pyindex.
  destruct (i <? 0) eqn:E; [lia|].
  destruct ((0 <=? i) && (i <? len l)) eqn:E2; [reflexivity|].
  assert (len l <= i) by lia.
  assert (Hn : nth_error l (Z.to_nat i) = None).
  { apply nth_error_None. unfold len in *. lia. }
  now rewrite Hn.
Qed.

Lemma pyindex_past_end (l : bytes) (i : Z) :
  len l <= i -> pyindex l i = Raise IndexError.
Proof.
  intros H. pose proof (len_nonneg l). rewrite pyindex_nonneg by lia.
  assert (Hn : nth_error l (Z.to_nat i) = None).
  { apply nth_error_None. unfold len in *. lia. }
  now rewrite Hn.
Qed.

Lemma pyindex_Ret_inside (l : bytes) (i v : Z) :
  0 <= i -> pyindex l i = Ret v -> i < len l /\ 0 <= v < 256.
Proof.
  intros Hi H. rewrite pyindex_nonneg in H by lia.
  destruct (nth_error l (Z.to_nat i)) eqn:E; [|discriminate].
  injection H as <-. split; [|apply byte_val_range].
  assert (nth_error l (Z.to_nat i) <> None) by congruence.
  apply nth_error_Some in H. unfold len. lia.
Qed.

Lemma pyindex_inside (l : bytes) (i : Z) :
  0 <= i < len l -> exists v, pyindex l i = Ret v /\ 0 <= v < 256.
Proof.
  intros Hi. rewrite pyindex_nonneg by lia.
  destruct (nth_error l (Z.to_nat i)) eqn:E.
  - eexists. split; [reflexivity | apply byte_val_range].
  - apply nth_error_None in E. unfold len in *. lia.
Qed.

(** The first byte of a slice is the byte of the list at the slice's start. *)
Lemma pyindex_pyslice_0 (l : bytes) (lo hi : Z) :
  0 <= lo < hi -> pyindex (pyslice l lo hi) 0 = pyindex l lo.
Proof.
  intros H. rewrite !pyindex_nonneg by lia.
  unfold pyslice. rewrite !clamp_nonneg by lia.
  pose proof (len_nonneg l).
  destruct (Z_lt_le_dec lo (len l)) as [Hin | Hout].
  - rewrite nth_error_firstn.
    replace (Nat.ltb (Z.to_nat 0) (Z.to_nat (Z.min hi (len l) - Z.min lo (len l))))
      with true by (symmetry; apply Nat.ltb_lt; lia).
    rewrite nth_error_skipn.
    replace (Z.to_nat (Z.min lo (len l)) + Z.to_nat 0)%nat
      with (Z.to_nat lo) by lia.
    reflexivity.
  - replace (Z.to_nat (Z.min hi (len l) - Z.min lo (len l))) with 0%nat by lia.
    cbn [firstn Z.to_nat nth_error].
    assert (Hn : nth_error l (Z.to_nat lo) = None).
    { apply nth_error_None. unfold len in *. lia. }
    now rewrite Hn.
Qed.

(** ** parse_directory_record *)

Lemma unpack_I_wrong_size (buf : bytes) :
  len buf <> 4 -> unpack_I buf = Raise StructError.
Proof.
  intros H. unfold unpack_I. destruct (len buf =? 4) eqn:E; [lia | reflexivity].
Qed.

(** With three bytes or more in the record, [record_data[2:6]] is not empty,
    so the buffer handed to [struct.unpack('<I', ...)] has more than 4
    bytes once the four zero bytes are appended. *)
Lemma padded_extent_field_too_long (record_data : bytes) :
  3 <= len record_data -> len (pyslice record_data 2 6 ++ zeros4) <> 4.
Proof.
  intros H. rewrite len_app, len_pyslice, !clamp_nonneg by lia.
  change (len zeros4) with 4. lia.
Qed.

Lemma parse_directory_record_struct_error_gen (record_data : bytes) :
  3 <= len record_data ->
  pyindex record_data 0 <> Ret 0 ->
  parse_directory_record record_data = Raise StructError.
Proof.
  intros Hlen Hfirst. unfold parse_directory_record.
  destruct (len record_data =? 0) eqn:E0; [lia|].
  destruct (pyindex_inside record_data 0) as [b0 [Hb0 _]]; [lia|].
  destruct (pyindex_inside record_data 1) as [b1 [Hb1 _]]; [lia|].
  rewrite Hb0. cbn [bind].
  destruct (b0 =? 0) eqn:Eb; [exfalso; apply Hfirst; rewrite Hb0; f_equal; lia|].
  rewrite Hb1. cbn [bind].
  rewrite unpack_I_wrong_size by (apply padded_extent_field_too_long; lia).
  reflexivity.
Qed.

(** A record of one or two bytes stops at an index that is not there. *)
Lemma parse_directory_record_short (record_data : bytes) :
  1 <= len record_data < 3 ->
  pyindex record_data 0 <> Ret 0 ->
  parse_directory_record record_data = Raise IndexError.
Proof.
  intros Hlen Hfirst.
  destruct record_data as [|a [|b [|c rest]]].
  - cbn in Hlen. lia.
  - unfold parse_directory_record. change (len [a] =? 0) with false. cbv iota.
    rewrite pyindex_nonneg in * by lia. cbn [Z.to_nat nth_error bind] in *.
    destruct (byte_val a =? 0) eqn:E.
    + exfalso. apply Hfirst. f_equal. lia.
    + reflexivity.
  - unfold parse_directory_record. change (len [a; b] =? 0) with false. cbv iota.
    rewrite pyindex_nonneg in * by lia. cbn [Z.to_nat nth_error bind] in *.
    destruct (byte_val a =? 0) eqn:E.
    + exfalso. apply Hfirst. f_equal. lia.
    + reflexivity.
  - rewrite !len_cons in Hlen. pose proof (len_nonneg rest). lia.
Qed.

(** Whatever the bytes, the decoder hands back no entry: it returns [None]
    (empty input, or a first byte of zero) or it raises. *)
Lemma parse_directory_record_no_entry (record_data : bytes) (e : entry) :
  parse_directory_record record_data <> Ret (Some e).
Proof.
  pose proof (len_nonneg record_data) as Hn.
  destruct (Z.eq_dec (len record_data) 0) as [E0 | E0].
  - unfold parse_directory_record. rewrite E0. cbn. discriminate.
  - destruct (pyindex record_data 0) as [b0|ex] eqn:Hb0.
    + destruct (Z.eq_dec b0 0) as [-> | Hnz].
      * unfold parse_directory_record.
        destruct (len record_data =? 0); [discriminate|].
        rewrite Hb0. cbn. discriminate.
      * destruct (Z_lt_le_dec (len record_data) 3).
        -- rewrite parse_directory_record_short; [discriminate | lia | congruence].
        -- rewrite parse_directory_record_struct_error_gen;
             [discriminate | lia | congruence].
    + unfold parse_directory_record.
      destruct (len record_data =? 0); [discriminate|].
      rewrite Hb0. cbn. discriminate.
Qed.

(** C1 (as the code has it): for every record of at least three bytes whose
    first byte is not zero, and so for every record long enough to hold the
    fixed fields, [parse_directory_record] does not return a directory
    record: the zero padding appended to [record_data[2:6]] makes the buffer
    given to [struct.unpack('<I', ...)] longer than 4 bytes, and the call
    raises struct.error. *)
Theorem parse_directory_record_raises_struct_error (record_data : bytes) :
  3 <= len record_data ->
  pyindex record_data 0 <> Ret 0 ->
  parse_directory_record record_data = Raise StructError.
Proof.
  intros Hlen Hfirst.
  now apply parse_directory_record_struct_error_gen.
Qed.

Lemma parse_directory_record_raises_struct_error_witness :
  3 <= len rec_file_A /\ pyindex rec_file_A 0 <> Ret 0 /\
  parse_directory_record rec_file_A = Raise StructError.
Proof.
  assert (H1 : 3 <= len rec_file_A) by (vm_compute; discriminate).
  assert (H2 : pyindex rec_file_A 0 <> Ret 0) by (vm_compute; discriminate).
  exact (conj H1 (conj H2
           (parse_directory_record_raises_struct_error rec_file_A H1 H2))).
Defined.

(** ** The directory scan of find_file_in_path *)

Section DirectoryScan.
Variables (dir_data : bytes) (block_size : Z) (component : string).

Local Abbreviation step := (scan_step dir_data block_size component).

(** A zero byte at an offset that is a multiple of [block_size]:
    [sector_remainder] equals [block_size], the guard
    [sector_remainder < block_size] fails, and the turn ends where it
    began. *)
Lemma scan_step_stuck (offset : Z) :
  0 < block_size ->
  0 <= offset ->
  offset mod block_size = 0 ->
  pyindex dir_data offset = Ret 0 ->
  step offset = Ret (Next offset).
Proof.
  intros Hbs Hoff Hmod Hz. unfold scan_step.
  destruct (pyindex_Ret_inside _ _ _ Hoff Hz) as [Hin _].
  destruct (offset <? len dir_data) eqn:E; [|lia].
  rewrite Hz. cbn [bind]. change (0 =? 0) with true. cbv iota.
  unfold pymod. destruct (block_size =? 0) eqn:Eb; [lia|].
  cbn [bind]. rewrite Hmod.
  destruct (block_size - 0 <? block_size) eqn:E2; [lia | reflexivity].
Qed.

(** A zero byte anywhere else in a sector moves the offset to the start
    of the next sector of the directory content. *)
Lemma scan_step_padding_advances (offset : Z) :
  0 < block_size ->
  0 <= offset ->
  offset mod block_size <> 0 ->
  pyindex dir_data offset = Ret 0 ->
  step offset = Ret (Next (block_size * (offset / block_size + 1))).
Proof.
  intros Hbs Hoff Hmod Hz. unfold scan_step.
  destruct (pyindex_Ret_inside _ _ _ Hoff Hz) as [Hin _].
  destruct (offset <? len dir_data) eqn:E; [|lia].
  rewrite Hz. cbn [bind]. change (0 =? 0) with true. cbv iota.
  unfold pymod. destruct (block_size =? 0) eqn:Eb; [lia|].
  cbn [bind].
  pose proof (Z.mod_pos_bound offset block_size Hbs).
  pose proof (Z.div_mod offset block_size ltac:(lia)).
  destruct (block_size - offset mod block_size <? block_size) eqn:E2; [|lia].
  do 2 f_equal. lia.
Qed.

(** A turn that starts on a byte other than zero ends in an exception:
    the record it cuts out is not empty and does not start with zero. *)
Lemma scan_step_record_raises (offset : Z) :
  0 <= offset ->
  offset < len dir_data ->
  pyindex dir_data offset <> Ret 0 ->
  exists e, step offset = Raise e.
Proof.
  intros Hoff Hin Hnz. unfold scan_step.
  destruct (offset <? len dir_data) eqn:E; [|lia].
  destruct (pyindex_inside dir_data offset) as [v [Hv Hr]]; [lia|].
  rewrite Hv. cbn [bind].
  destruct (v =? 0) eqn:Ev; [exfalso; apply Hnz; rewrite Hv; f_equal; lia|].
  set (record := pyslice dir_data offset (offset + v)).
  assert (Hfirst : pyindex record 0 = Ret v).
  { unfold record. rewrite pyindex_pyslice_0 by lia. exact Hv. }
  assert (Hlen : 1 <= len record).
  { unfold record. rewrite len_pyslice, !clamp_nonneg by lia. lia. }
  destruct (Z_lt_le_dec (len record) 3).
  - exists IndexError. rewrite parse_directory_record_short;
      [reflexivity | lia | rewrite Hfirst; intros [= ->]; discriminate].
  - exists StructError. rewrite parse_directory_record_struct_error_gen;
      [reflexivity | lia | rewrite Hfirst; intros [= ->]; discriminate].
Qed.

(** No turn of the scan leaves the loop with a matched entry. *)
Lemma scan_step_no_match (offset : Z) (e : entry) :
  step offset <> Ret (Stop (Some e)).
Proof.
  unfold scan_step.
  destruct (offset <? len dir_data); [|discriminate].
  destruct (pyindex dir_data offset) as [v|ex]; cbn [bind]; [|discriminate].
  destruct (v =? 0).
  - destruct (pymod offset block_size); cbn [bind]; [|discriminate].
    destruct (_ <? _); discriminate.
  - destruct (parse_directory_record _) as [[e'|]|ex] eqn:P; cbn [bind].
    + exfalso. exact (parse_directory_record_no_entry _ _ P).
    + discriminate.
    + discriminate.
Qed.

Lemma run_loop_scan_no_match (fuel : nat) (offset : Z) (e : entry) :
  run_loop step fuel offset <> Some (Ret (Some e)).
Proof.
  revert offset. induction fuel as [|fuel IH]; intros offset; cbn [run_loop].
  - discriminate.
  - destruct (step offset) as [[o'|a]|ex] eqn:S.
    + apply IH.
    + intros [= ->]. exact (scan_step_no_match _ _ S).
    + discriminate.
Qed.
End DirectoryScan.

(** A loop body that hands back the offset it was given never leaves the
    loop, whatever the number of turns allowed. *)
Lemma run_loop_fixed_point {A : Type} (step : Z -> result (ctl A))
    (offset : Z) (fuel : nat) :
  step offset = Ret (Next offset) -> run_loop step fuel offset = None.
Proof.
  intros H. induction fuel as [|fuel IH]; cbn [run_loop].
  - reflexivity.
  - rewrite H. exact IH.
Qed.

Lemma run_loop_raises_at_once {A : Type} (step : Z -> result (ctl A))
    (offset : Z) (fuel : nat) (e : exn) :
  step offset = Raise e -> run_loop step (S fuel) offset = Some (Raise e).
Proof. intros H. cbn [run_loop]. now rewrite H. Qed.

(** ** find_file_in_path *)

(** The content of the directory that [current] points at, as the code
    reads it. *)
Lemma walk_cons (fuel : nat) (iso_data : bytes) (block_size : Z)
    (component : string) (rest : list string) (current : entry) :
  walk fuel iso_data block_size (component :: rest) current =
  if negb (e_is_dir current) then Some (Ret None)
  else
    match run_loop
            (scan_step
               (pyslice iso_data (e_extent current * block_size)
                  (e_extent current * block_size + e_length current))
               block_size component) fuel 0 with
    | None => None
    | Some (Raise e) => Some (Raise e)
    | Some (Ret None) => Some (Ret None)
    | Some (Ret (Some found)) => walk fuel iso_data block_size rest found
    end.
Proof. reflexivity. Qed.

Lemma find_file_in_path_cons (fuel : nat) (iso_data : bytes)
    (root_record : entry) (block_size : Z)
    (component : string) (rest : list string) :
  find_file_in_path fuel iso_data root_record block_size (component :: rest)
  = walk fuel iso_data block_size (component :: rest) root_record.
Proof. reflexivity. Qed.

(** The resolver never returns a record: a match needs a decoded entry, and
    [parse_directory_record] decodes none. *)
Lemma find_file_in_path_never_finds (fuel : nat) (iso_data : bytes)
    (root_record : entry) (block_size : Z) (path_components : list string)
    (e : entry) :
  find_file_in_path fuel iso_data root_record block_size path_components
  <> Some (Ret (Some e)).
Proof.
  destruct path_components as [|c rest]; [discriminate|].
  rewrite find_file_in_path_cons, walk_cons.
  destruct (negb (e_is_dir root_record)); [discriminate|].
  destruct (run_loop _ fuel 0) as [[[found|]|ex]|] eqn:R; try discriminate.
  exfalso. exact (run_loop_scan_no_match _ _ _ _ _ _ R).
Qed.

(** When the first byte of the first directory is not zero, the resolver
    raises. *)
Lemma find_file_in_path_first_record_raises (fuel : nat) (iso_data : bytes)
    (root_record : entry) (block_size : Z)
    (component : string) (rest : list string) (e : exn) :
  e_is_dir root_record = true ->
  scan_step
    (pyslice iso_data (e_extent root_record * block_size)
       (e_extent root_record * block_size + e_length root_record))
    block_size component 0 = Raise e ->
  find_file_in_path (S fuel) iso_data root_record block_size
    (component :: rest) = Some (Raise e).
Proof.
  intros Hdir Hstep. rewrite find_file_in_path_cons, walk_cons, Hdir.
  cbn [negb]. rewrite (run_loop_raises_at_once _ _ _ _ Hstep). reflexivity.
Qed.

(** The two ways in which the resolver does answer [None] on a path that is
    not empty: the root record is not a directory, or the directory it
    points at has no bytes. *)
Lemma find_file_in_path_root_not_directory (fuel : nat) (iso_data : bytes)
    (root_record : entry) (block_size : Z)
    (component : string) (rest : list string) :
  e_is_dir root_record = false ->
  find_file_in_path fuel iso_data root_record block_size (component :: rest)
  = Some (Ret None).
Proof.
  intros Hdir. rewrite find_file_in_path_cons, walk_cons, Hdir. reflexivity.
Qed.

Lemma find_file_in_path_empty_directory (fuel : nat) (iso_data : bytes)
    (root_record : entry) (block_size : Z)
    (component : string) (rest : list string) :
  pyslice iso_data (e_extent root_record * block_size)
    (e_extent root_record * block_size + e_length root_record) = [] ->
  find_file_in_path (S fuel) iso_data root_record block_size
    (component :: rest) = Some (Ret None).
Proof.
  intros Hempty. rewrite find_file_in_path_cons, walk_cons, Hempty.
  destruct (negb (e_is_dir root_record)); reflexivity.
Qed.

(** C10: with an empty [path_components] the resolver answers [None], not
    the root record, whatever the image, the root record and the block
    size. *)
Theorem find_file_in_path_empty_path (fuel : nat) (iso_data : bytes)
    (root_record : entry) (block_size : Z) :
  find_file_in_path fuel iso_data root_record block_size [] = Some (Ret None).
Proof. reflexivity. Qed.

(** C2 (as the code has it): on the fixture image, whose root directory
    holds the file "A" (extent 1, 5 bytes) and whose block 1 starts with the
    5 bytes of [payload], resolving ["A"] does not reach [extract_file]:
    the first directory record makes [parse_directory_record] raise
    struct.error, and [find_file_in_path] passes the exception on. *)
Theorem round_trip_fixture_raises :
  pyslice image_file (1 * 2048) (1 * 2048 + 5) = payload /\
  pyslice image_file 0 34 = rec_file_A /\
  forall fuel : nat,
    find_file_in_path (S fuel) image_file root_dir 2048 ["A"%string]
    = Some (Raise StructError).
Proof.
  split; [vm_compute; reflexivity|].
  split; [vm_compute; reflexivity|].
  intros fuel. apply find_file_in_path_first_record_raises.
  - reflexivity.
  - vm_compute. reflexivity.
Qed.

(** C6 (as the code has it): on the fixture tree, whose root holds the
    directory "BOOT" and nothing named "MISSING" anywhere, resolving
    ["BOOT"; "MISSING"] gives neither [None] nor a record: the scan of the
    root directory raises struct.error at its first record. *)
Theorem negative_lookup_fixture_raises :
  forall fuel : nat,
    find_file_in_path (S fuel) image_tree root_dir 2048
      ["BOOT"%string; "MISSING"%string]
    = Some (Raise StructError).
Proof.
  intros fuel. apply find_file_in_path_first_record_raises.
  - reflexivity.
  - vm_compute. reflexivity.
Qed.

(** C4 (as the code has it): when the directory that the root record points
    at starts with a zero byte and [block_size] is positive, the scan finds
    [sector_remainder = block_size], leaves [offset] at 0 and goes round
    again on the same byte: no number of turns brings [find_file_in_path]
    to a result. *)
Theorem find_file_in_path_padding_never_returns (fuel : nat)
    (iso_data : bytes) (root_record : entry) (block_size : Z)
    (component : string) (rest : list string) :
  0 < block_size ->
  e_is_dir root_record = true ->
  pyindex
    (pyslice iso_data (e_extent root_record * block_size)
       (e_extent root_record * block_size + e_length root_record)) 0
  = Ret 0 ->
  find_file_in_path fuel iso_data root_record block_size (component :: rest)
  = None.
Proof.
  intros Hbs Hdir Hzero.
  rewrite find_file_in_path_cons, walk_cons, Hdir. cbn [negb].
  rewrite run_loop_fixed_point; [reflexivity|].
  apply scan_step_stuck; [lia | lia | apply Z.mod_0_l; lia | exact Hzero].
Qed.

Lemma find_file_in_path_padding_never_returns_witness :
  find_file_in_path 1000 (zeros 2048) root_dir 2048 ["vmlinuz"%string] = None.
Proof.
  apply (find_file_in_path_padding_never_returns
           1000 (zeros 2048) root_dir 2048 "vmlinuz"%string []).
  - lia.
  - reflexivity.
  - vm_compute. reflexivity.
Defined.

(** ** extract_file *)






(** ** parse_iso9660_primary_volume_descriptor *)

Section DescriptorScan.
Variable iso_data : bytes.

Local Abbreviation sector_at offset :=
  (pyslice iso_data offset (offset + 2048)).

(** [descriptor[0]] is the byte of the image at [offset], and fails exactly
    when the image has no such byte. *)
Lemma descriptor_type_code (offset : Z) :
  0 <= offset -> pyindex (sector_at offset) 0 = pyindex iso_data offset.
Proof. intros H. apply pyindex_pyslice_0. lia. Qed.

Lemma pvd_step_past_end (offset : Z) :
  0 <= offset -> len iso_data <= offset ->
  pvd_step iso_data offset = Raise IndexError.
Proof.
  intros H0 H. unfold pvd_step.
  rewrite descriptor_type_code, pyindex_past_end by lia. reflexivity.
Qed.

Lemma pvd_step_terminator (offset : Z) :
  0 <= offset -> pyindex iso_data offset = Ret 255 ->
  pvd_step iso_data offset = Ret (Stop None).
Proof.
  intros H0 H. unfold pvd_step.
  rewrite descriptor_type_code, H by lia. reflexivity.
Qed.

Lemma pvd_step_skip (offset v : Z) :
  0 <= offset -> pyindex iso_data offset = Ret v -> v <> 1 -> v <> 255 ->
  pvd_step iso_data offset = Ret (Next (offset + 2048)).
Proof.
  intros H0 H H1 H255. unfold pvd_step.
  rewrite descriptor_type_code, H by lia. cbn [bind].
  destruct (v =? 0) eqn:E0; [reflexivity|].
  destruct (v =? 1) eqn:E1; [lia|].
  destruct (v =? 255) eqn:E2; [lia|]. reflexivity.
Qed.

(** The [return] inside the loop: a full primary sector whose two
    identifier fields decode as ASCII. *)
Lemma pvd_step_primary (offset : Z) :
  0 <= offset ->
  offset + 2048 <= len iso_data ->
  pyindex iso_data offset = Ret 1 ->
  forallb is_ascii (pyslice (sector_at offset) 8 40) = true ->
  forallb is_ascii (pyslice (sector_at offset) 40 72) = true ->
  pvd_step iso_data offset
  = Ret (Stop (Some (pyslice (sector_at offset) 156 190,
                     le_uint (pyslice (sector_at offset) 128 130)))).
Proof.
  intros H0 Hfull Htype Hsys Hvol. unfold pvd_step.
  rewrite descriptor_type_code, Htype by lia. cbn [bind].
  change (1 =? 0) with false. change (1 =? 1) with true. cbv iota.
  assert (Hsec : len (sector_at offset) = 2048)
    by (rewrite len_pyslice_inside; lia).
  unfold decode_ascii. rewrite Hsys, Hvol. cbn [bind].
  unfold unpack_I, unpack_H.
  rewrite !len_pyslice_inside by lia.
  reflexivity.
Qed.

(** A turn that goes round again has read a byte and moved 2048 on. *)
Lemma pvd_step_next (offset offset' : Z) :
  0 <= offset ->
  pvd_step iso_data offset = Ret (Next offset') ->
  offset' = offset + 2048 /\ offset < len iso_data.
Proof.
  intros H0. unfold pvd_step. rewrite descriptor_type_code by lia.
  destruct (pyindex iso_data offset) as [v|ex] eqn:Hv; cbn [bind];
    [|discriminate].
  destruct (pyindex_Ret_inside _ _ _ H0 Hv) as [Hin _].
  destruct (v =? 0); [intros [= <-]; lia|].
  destruct (v =? 1).
  - destruct (decode_ascii _); cbn [bind]; [|discriminate].
    destruct (decode_ascii _); cbn [bind]; [|discriminate].
    destruct (unpack_I _); cbn [bind]; [|discriminate].
    destruct (unpack_H _); cbn [bind]; [|discriminate].
    destruct (unpack_H _); cbn [bind]; [|discriminate].
    destruct (unpack_H _); cbn [bind]; [|discriminate].
    destruct (unpack_I _); cbn [bind]; discriminate.
  - destruct (v =? 255); [discriminate|]. intros [= <-]. lia.
Qed.

(** Enough fuel to walk off the end of the image is enough fuel. *)
Lemma pvd_loop_total (fuel : nat) :
  forall offset : Z,
    0 <= offset ->
    len iso_data <= offset + 2048 * Z.of_nat fuel ->
    exists r, run_loop (pvd_step iso_data) (S fuel) offset = Some r.
Proof.
  induction fuel as [|fuel IH]; intros offset H0 Hend.
  - rewrite (run_loop_raises_at_once _ _ _ IndexError).
    + eexists; reflexivity.
    + apply pvd_step_past_end; lia.
  - cbn [run_loop]. destruct (pvd_step iso_data offset) as [[o'|a]|ex] eqn:S.
    + destruct (pvd_step_next _ _ H0 S) as [-> Hin].
      apply IH; lia.
    + eexists; reflexivity.
    + eexists; reflexivity.
Qed.

(** With no primary descriptor and no terminator at any sector start, the
    scan walks off the end of the image. *)
Lemma pvd_loop_runs_off (fuel : nat) :
  forall offset : Z,
    0 <= offset ->
    len iso_data <= offset + 2048 * Z.of_nat fuel ->
    (forall j : nat,
       pyindex iso_data (offset + 2048 * Z.of_nat j) <> Ret 1 /\
       pyindex iso_data (offset + 2048 * Z.of_nat j) <> Ret 255) ->
    run_loop (pvd_step iso_data) (S fuel) offset = Some (Raise IndexError).
Proof.
  induction fuel as [|fuel IH]; intros offset H0 Hend Hnone.
  - apply run_loop_raises_at_once, pvd_step_past_end; lia.
  - destruct (Z_lt_le_dec offset (len iso_data)) as [Hin | Hout].
    + destruct (pyindex_inside iso_data offset) as [v [Hv _]]; [lia|].
      destruct (Hnone 0%nat) as [N1 N255].
      replace (offset + 2048 * Z.of_nat 0) with offset in * by lia.
      cbn [run_loop].
      rewrite (pvd_step_skip offset v) by (congruence || lia).
      apply IH; [lia | lia |].
      intros j. specialize (Hnone (S j)).
      replace (offset + 2048 + 2048 * Z.of_nat j)
        with (offset + 2048 * Z.of_nat (S j)) by lia.
      exact Hnone.
    + apply run_loop_raises_at_once, pvd_step_past_end; lia.
Qed.

(** A terminator at the [n]-th sector from [offset], no primary descriptor
    before it: the loop breaks, at that sector or at an earlier
    terminator. *)
Lemma pvd_loop_terminator (n : nat) :
  forall (fuel : nat) (offset : Z),
    0 <= offset ->
    (n < fuel)%nat ->
    (forall j : nat, (j < n)%nat ->
       pyindex iso_data (offset + 2048 * Z.of_nat j) <> Ret 1) ->
    pyindex iso_data (offset + 2048 * Z.of_nat n) = Ret 255 ->
    run_loop (pvd_step iso_data) fuel offset = Some (Ret None).
Proof.
  induction n as [|n IH]; intros fuel offset H0 Hfuel Hnone Hterm;
    (destruct fuel as [|fuel]; [lia|]); cbn [run_loop].
  - replace (offset + 2048 * Z.of_nat 0) with offset in Hterm by lia.
    now rewrite pvd_step_terminator.
  - assert (Hin : offset + 2048 * Z.of_nat (S n) < len iso_data)
      by (eapply pyindex_Ret_inside; [lia | exact Hterm]).
    destruct (pyindex_inside iso_data offset) as [v [Hv _]]; [lia|].
    assert (N1 : v <> 1).
    { intros ->. apply (Hnone 0%nat); [lia|].
      replace (offset + 2048 * Z.of_nat 0) with offset by lia. exact Hv. }
    destruct (Z.eq_dec v 255) as [-> | N255].
    + now rewrite pvd_step_terminator.
    + rewrite (pvd_step_skip offset v) by assumption.
      apply IH; [lia | lia | |].
      * intros j Hj.
        replace (offset + 2048 + 2048 * Z.of_nat j)
          with (offset + 2048 * Z.of_nat (S j)) by lia.
        apply Hnone. lia.
      * replace (offset + 2048 + 2048 * Z.of_nat n)
          with (offset + 2048 * Z.of_nat (S n)) by lia.
        exact Hterm.
Qed.
End DescriptorScan.

(** The descriptor scan always ends: with a value or with an exception. *)
Lemma pvd_scan_total (iso_data : bytes) :
  exists r, parse_iso9660_primary_volume_descriptor iso_data = Some r.
Proof.
  unfold parse_iso9660_primary_volume_descriptor.
  apply pvd_loop_total; [lia | unfold len; lia].
Qed.

(** C3, counterexample: a volume whose sector at 0x8000 starts with 1 and
    is followed by a terminator sector, but whose system identifier starts
    with the byte 0x80.  [decode('ascii')] raises UnicodeDecodeError and
    nothing is returned. *)
Lemma pvd_scan_non_ascii_identifier_raises :
  pyindex (volume_with (pvd_sector x80)) 0x8000 = Ret 1
  /\ pyindex (volume_with (pvd_sector x80)) (0x8000 + 2048 * 1) = Ret 255
  /\ parse_iso9660_primary_volume_descriptor (volume_with (pvd_sector x80))
     = Some (Raise UnicodeDecodeError)
  /\ forall r : option (bytes * Z),
       parse_iso9660_primary_volume_descriptor (volume_with (pvd_sector x80))
       <> Some (Ret r).
Proof.
  assert (H : parse_iso9660_primary_volume_descriptor
                (volume_with (pvd_sector x80))
              = Some (Raise UnicodeDecodeError)) by (vm_compute; reflexivity).
  split; [vm_compute; reflexivity|].
  split; [vm_compute; reflexivity|].
  split; [exact H|].
  intros r. rewrite H. discriminate.
Qed.

(** C3 (amended): when the sector at 0x8000 starts with 1, a later sector
    starts with 255, and the bytes of the system and volume identifiers
    (sector offsets [8, 40) and [40, 72)) are all ASCII, the scan returns
    the 34 raw bytes at sector offsets [156, 190), undecoded, and the
    little-endian integer held at sector offsets [128, 130). *)
Theorem pvd_scan_returns_block_size_and_root (iso_data : bytes) (k : Z) :
  let sector := pyslice iso_data 0x8000 (0x8000 + 2048) in
  pyindex iso_data 0x8000 = Ret 1 ->
  1 <= k ->
  pyindex iso_data (0x8000 + 2048 * k) = Ret 255 ->
  forallb is_ascii (pyslice sector 8 40) = true ->
  forallb is_ascii (pyslice sector 40 72) = true ->
  parse_iso9660_primary_volume_descriptor iso_data
  = Some (Ret (Some (pyslice sector 156 190,
                     le_uint (pyslice sector 128 130))))
  /\ len (pyslice sector 156 190) = 34
  /\ len (pyslice sector 128 130) = 2.
Proof.
  intros sector Htype Hk Hterm Hsys Hvol.
  assert (Hin : 0x8000 + 2048 * k < len iso_data)
    by (eapply pyindex_Ret_inside; [lia | exact Hterm]).
  assert (Hsec : len sector = 2048)
    by (unfold sector; rewrite len_pyslice_inside; lia).
  split; [|split; rewrite len_pyslice_inside; lia].
  unfold parse_iso9660_primary_volume_descriptor. cbn [run_loop].
  rewrite pvd_step_primary; [reflexivity | lia | lia | assumption ..].
Qed.

Lemma pvd_scan_returns_block_size_and_root_witness :
  parse_iso9660_primary_volume_descriptor (volume_with (pvd_sector x20))
  = Some (Ret (Some (rec_file_A, 2048))).
Proof.
  refine (proj1 (pvd_scan_returns_block_size_and_root
                   (volume_with (pvd_sector x20)) 1 _ _ _ _ _)).
  - vm_compute. reflexivity.
  - lia.
  - vm_compute. reflexivity.
  - vm_compute. reflexivity.
  - vm_compute. reflexivity.
Defined.

(** C8: when some sector start at or after 0x8000 holds the byte 255 and no
    sector start before it holds the byte 1, the scan returns the failure
    value [(None, None)] (here [Ret None]). *)
Theorem pvd_scan_terminator_without_primary (iso_data : bytes) (k : nat) :
  (forall j : nat, (j < k)%nat ->
     pyindex iso_data (0x8000 + 2048 * Z.of_nat j) <> Ret 1) ->
  pyindex iso_data (0x8000 + 2048 * Z.of_nat k) = Ret 255 ->
  parse_iso9660_primary_volume_descriptor iso_data = Some (Ret None).
Proof.
  intros Hnone Hterm.
  assert (Hin : 0x8000 + 2048 * Z.of_nat k < len iso_data)
    by (eapply pyindex_Ret_inside; [lia | exact Hterm]).
  unfold parse_iso9660_primary_volume_descriptor.
  apply (pvd_loop_terminator iso_data k); [lia | unfold len in Hin; lia | |];
    assumption.
Qed.

Lemma pvd_scan_terminator_without_primary_witness :
  parse_iso9660_primary_volume_descriptor (volume_with [x02]) = Some (Ret None).
Proof.
  apply (pvd_scan_terminator_without_primary (volume_with [x02]) 1).
  - intros j Hj. assert (j = 0%nat) as -> by lia. vm_compute. discriminate.
  - vm_compute. reflexivity.
Defined.

(** C9: an image shorter than 0x8001 bytes, or one with neither 1 nor 255
    at any sector start from 0x8000 on, makes the scan index past the end
    of the buffer: it raises IndexError and returns no failure value. *)
Theorem pvd_scan_raises_index_error (iso_data : bytes) :
  (len iso_data < 0x8001 \/
   forall k : nat,
     pyindex iso_data (0x8000 + 2048 * Z.of_nat k) <> Ret 1 /\
     pyindex iso_data (0x8000 + 2048 * Z.of_nat k) <> Ret 255) ->
  parse_iso9660_primary_volume_descriptor iso_data = Some (Raise IndexError).
Proof.
  intros H.
  assert (Hnone : forall k : nat,
            pyindex iso_data (0x8000 + 2048 * Z.of_nat k) <> Ret 1 /\
            pyindex iso_data (0x8000 + 2048 * Z.of_nat k) <> Ret 255).
  { destruct H as [Hshort | Hall]; [|exact Hall].
    intros k. rewrite pyindex_past_end by lia. split; discriminate. }
  unfold parse_iso9660_primary_volume_descriptor.
  apply pvd_loop_runs_off; [lia | unfold len; lia | exact Hnone].
Qed.

Lemma pvd_scan_raises_index_error_witness :
  parse_iso9660_primary_volume_descriptor [x01; xff]
  = Some (Raise IndexError).
Proof.
  apply (pvd_scan_raises_index_error [x01; xff]).
  left. vm_compute. reflexivity.
Defined.

(** ** The signature scan *)

Lemma byte_eqb_eq (a b : byte) : Byte.eqb a b = true <-> a = b.
Proof. split; [apply Byte.byte_dec_bl | apply Byte.byte_dec_lb]. Qed.

Lemma starts_with_iff (pat l : bytes) :
  starts_with pat l = true <-> exists post, l = pat ++ post.
Proof.
  revert l. induction pat as [|p pat IH]; intros l; cbn [starts_with].
  - split; [intros _; now exists l | reflexivity].
  - destruct l as [|b l].
    + split; [discriminate | intros [post H]; discriminate].
    + rewrite andb_true_iff, byte_eqb_eq, IH.
      split.
      * intros [-> [post ->]]. now exists post.
      * intros [post [= -> ->]]. split; [reflexivity | now exists post].
Qed.

(** [find_from] returns the offset of the first occurrence. *)
Lemma find_from_first (pat : bytes) (pre : bytes) :
  forall (post l : bytes) (pos : Z),
    l = pre ++ pat ++ post ->
    (forall pre' post', l = pre' ++ pat ++ post' -> len pre <= len pre') ->
    find_from l pat pos = pos + len pre.
Proof.
  induction pre as [|a pre IH]; intros post l pos Hl Hmin.
  - assert (Hs : starts_with pat l = true)
      by (apply starts_with_iff; now exists post).
    destruct l; cbn [find_from]; rewrite Hs; change (len (@nil byte)) with 0; lia.
  - subst l. cbn [app find_from].
    destruct (starts_with pat (a :: pre ++ pat ++ post)) eqn:Hs.
    + apply starts_with_iff in Hs. destruct Hs as [post' Hs].
      specialize (Hmin [] post' Hs). rewrite len_cons in Hmin.
      change (len (@nil byte)) with 0 in Hmin.
      pose proof (len_nonneg pre). lia.
    + rewrite (IH post (pre ++ pat ++ post) (pos + 1) eq_refl).
      * rewrite len_cons. lia.
      * intros pre' post' H'.
        specialize (Hmin (a :: pre') post').
        cbn [app] in Hmin. rewrite H' in Hmin. specialize (Hmin eq_refl).
        rewrite !len_cons in Hmin. lia.
Qed.

(** [find_from] returns [-1] when the pattern occurs nowhere. *)
Lemma find_from_absent (pat l : bytes) :
  forall pos : Z,
    (forall pre post, l <> pre ++ pat ++ post) ->
    find_from l pat pos = -1.
Proof.
  induction l as [|a l IH]; intros pos Habs.
  - cbn [find_from]. destruct (starts_with pat []) eqn:Hs; [|reflexivity].
    apply starts_with_iff in Hs. destruct Hs as [post Hs].
    exfalso. exact (Habs [] post Hs).
  - cbn [find_from]. destruct (starts_with pat (a :: l)) eqn:Hs.
    + apply starts_with_iff in Hs. destruct Hs as [post Hs].
      exfalso. exact (Habs [] post Hs).
    + apply IH. intros pre post H. apply (Habs (a :: pre) post).
      cbn [app]. now rewrite H.
Qed.

(** The scan itself, as written at the end of [main]: with the signature
    first occurring after the bytes [pre], the window is the piece of the
    image that follows [pre], cut at [window_size] bytes or at the end of
    the image. *)
Lemma fallback_scan_first_occurrence (iso_data pre post : bytes) :
  iso_data = pre ++ kernel_magic ++ post ->
  (forall pre' post' : bytes,
     iso_data = pre' ++ kernel_magic ++ post' -> len pre <= len pre') ->
  exists w rest : bytes,
    main_fallback_scan iso_data = Some w
    /\ iso_data = pre ++ w ++ rest
    /\ len w = Z.min window_size (len iso_data - len pre).
Proof.
  intros Hocc Hmin.
  pose proof (len_nonneg pre) as Hpre. pose proof (len_nonneg post) as Hpost.
  assert (Hw : window_size = 20971520) by reflexivity.
  assert (Hn : len iso_data = len pre + 4 + len post).
  { rewrite Hocc, !len_app. change (len kernel_magic) with 4. lia. }
  assert (Hskip : skipn (Z.to_nat (len pre)) iso_data = kernel_magic ++ post).
  { rewrite Hocc. unfold len. rewrite Nat2Z.id.
    clear. induction pre as [|a pre IH]; [reflexivity | exact IH]. }
  set (m := Z.to_nat (Z.min (len pre + window_size) (len iso_data) - len pre)).
  exists (firstn m (kernel_magic ++ post)), (skipn m (kernel_magic ++ post)).
  split; [|split].
  - unfold main_fallback_scan, bytes_find.
    rewrite (find_from_first kernel_magic pre post iso_data 0 Hocc Hmin).
    replace (0 + len pre) with (len pre) by lia.
    destruct (len pre =? -1) eqn:E; [lia|]. cbn [negb]. f_equal.
    unfold pyslice. rewrite !clamp_nonneg by lia.
    rewrite (Z.min_l (len pre)) by lia. fold m. now rewrite Hskip.
  - rewrite firstn_skipn. exact Hocc.
  - unfold len in *. rewrite length_firstn, length_app.
    change (List.length kernel_magic) with 4%nat. subst m. lia.
Qed.

Lemma fallback_scan_absent (iso_data : bytes) :
  (forall pre post : bytes, iso_data <> pre ++ kernel_magic ++ post) ->
  main_fallback_scan iso_data = None.
Proof.
  intros Habs. unfold main_fallback_scan, bytes_find.
  now rewrite find_from_absent.
Qed.

(** * Further properties of the code *)

(** ** parse_directory_record, on every input *)

(** X1: whatever bytes it is given, [parse_directory_record] ends in one of
    three ways: it returns [None], it raises IndexError, or it raises
    struct.error.  It never returns a record and never gets as far as
    decoding the name. *)
Theorem parse_directory_record_never_decodes (record_data : bytes) :
  parse_directory_record record_data = Ret None \/
  parse_directory_record record_data = Raise IndexError \/
  parse_directory_record record_data = Raise StructError.
Proof.
  pose proof (len_nonneg record_data) as Hn.
  destruct (Z.eq_dec (len record_data) 0) as [E0 | E0].
  - left. unfold parse_directory_record. now rewrite E0.
  - destruct (pyindex_inside record_data 0) as [b0 [Hb0 _]]; [lia|].
    destruct (Z.eq_dec b0 0) as [-> | Hnz].
    + left. unfold parse_directory_record.
      destruct (len record_data =? 0); [reflexivity|]. now rewrite Hb0.
    + assert (Hfirst : pyindex record_data 0 <> Ret 0)
        by (rewrite Hb0; intros [= ->]; now apply Hnz).
      destruct (Z_lt_le_dec (len record_data) 3).
      * right; left. apply parse_directory_record_short; [lia | exact Hfirst].
      * right; right.
        apply parse_directory_record_struct_error_gen; [lia | exact Hfirst].
Qed.

(** X2: [parse_directory_record] returns [None], the padding signal, exactly
    when its input is empty or starts with a zero byte. *)
Theorem parse_directory_record_padding_signal (record_data : bytes) :
  parse_directory_record record_data = Ret None
  <-> (record_data = [] \/ pyindex record_data 0 = Ret 0).
Proof.
  pose proof (len_nonneg record_data) as Hn.
  split.
  - intros H. destruct record_data as [|b rest]; [now left | right].
    destruct (pyindex_inside (b :: rest) 0) as [b0 [Hb0 _]];
      [rewrite len_cons; pose proof (len_nonneg rest); lia|].
    destruct (Z.eq_dec b0 0) as [-> | Hnz]; [exact Hb0|].
    exfalso.
    assert (Hfirst : pyindex (b :: rest) 0 <> Ret 0)
      by (rewrite Hb0; intros [= ->]; now apply Hnz).
    destruct (Z_lt_le_dec (len (b :: rest)) 3).
    + rewrite parse_directory_record_short in H;
        [discriminate | | exact Hfirst].
      rewrite len_cons in *. pose proof (len_nonneg rest). lia.
    + rewrite parse_directory_record_struct_error_gen in H;
        [discriminate | lia | exact Hfirst].
  - intros [-> | H0]; [reflexivity|].
    unfold parse_directory_record.
    destruct (len record_data =? 0); [reflexivity|]. now rewrite H0.
Qed.

(** X3: a record cut down to one or two bytes whose first byte is not zero
    makes [parse_directory_record] raise IndexError: at [record_data[1]]
    when there is one byte, at [record_data[32]] when there are two. *)
Theorem parse_directory_record_truncated_index_error (record_data : bytes) :
  1 <= len record_data < 3 ->
  pyindex record_data 0 <> Ret 0 ->
  parse_directory_record record_data = Raise IndexError.
Proof.
  intros Hlen Hfirst. now apply parse_directory_record_short.
Qed.

Lemma parse_directory_record_truncated_index_error_witness :
  parse_directory_record [x22; x00] = Raise IndexError.
Proof.
  apply (parse_directory_record_truncated_index_error [x22; x00]).
  - change (len [x22; x00]) with 2. lia.
  - vm_compute. discriminate.
Defined.

(** ** find_file_in_path, on every input *)

Lemma scan_step_stuck_at_start (dir_data : bytes) (block_size : Z)
    (component : string) :
  block_size <> 0 ->
  pyindex dir_data 0 = Ret 0 ->
  scan_step dir_data block_size component 0 = Ret (Next 0).
Proof.
  intros Hbs Hz. unfold scan_step.
  destruct (pyindex_Ret_inside _ _ _ (Z.le_refl 0) Hz) as [Hin _].
  destruct (0 <? len dir_data) eqn:E; [|lia].
  rewrite Hz. cbn [bind]. change (0 =? 0) with true. cbv iota.
  unfold pymod. destruct (block_size =? 0) eqn:Eb; [lia|].
  cbn [bind]. rewrite Z.mod_0_l by exact Hbs.
  destruct (block_size - 0 <? block_size) eqn:E2; [lia | reflexivity].
Qed.

Lemma scan_step_zero_block_size (dir_data : bytes) (component : string) :
  pyindex dir_data 0 = Ret 0 ->
  scan_step dir_data 0 component 0 = Raise ZeroDivisionError.
Proof.
  intros Hz. unfold scan_step.
  destruct (pyindex_Ret_inside _ _ _ (Z.le_refl 0) Hz) as [Hin _].
  destruct (0 <? len dir_data) eqn:E; [|lia].
  rewrite Hz. reflexivity.
Qed.

(** The record cut out at the start of a directory, and the exception it
    ends in. *)
Lemma scan_step_first_record (dir_data : bytes) (block_size : Z)
    (component : string) (v : Z) :
  pyindex dir_data 0 = Ret v ->
  v <> 0 ->
  scan_step dir_data block_size component 0
  = Raise (if 3 <=? Z.min v (len dir_data) then StructError else IndexError).
Proof.
  intros Hv Hnz. unfold scan_step.
  destruct (pyindex_Ret_inside _ _ _ (Z.le_refl 0) Hv) as [Hin Hr].
  destruct (0 <? len dir_data) eqn:E; [|lia].
  rewrite Hv. cbn [bind]. destruct (v =? 0) eqn:Ev; [lia|].
  set (record := pyslice dir_data 0 (0 + v)).
  assert (Hfirst : pyindex record 0 = Ret v)
    by (unfold record; rewrite pyindex_pyslice_0 by lia; exact Hv).
  assert (Hlen : len record = Z.min v (len dir_data))
    by (unfold record; rewrite len_pyslice, !clamp_nonneg by lia; lia).
  assert (Hne : pyindex record 0 <> Ret 0)
    by (rewrite Hfirst; intros [= ->]; now apply Hnz).
  rewrite <- Hlen.
  destruct (3 <=? len record) eqn:E3.
  - rewrite parse_directory_record_struct_error_gen; [reflexivity | lia | exact Hne].
  - rewrite parse_directory_record_short; [reflexivity | lia | exact Hne].
Qed.

(** X4: [find_file_in_path] never returns a record, whatever the image,
    the root record, the block size and the path: a match needs an entry
    decoded by [parse_directory_record], and there is none. *)
Theorem find_file_in_path_returns_no_record (fuel : nat) (iso_data : bytes)
    (root_record : entry) (block_size : Z) (path_components : list string)
    (e : entry) :
  find_file_in_path fuel iso_data root_record block_size path_components
  <> Some (Ret (Some e)).
Proof.
  destruct path_components as [|c rest]; [discriminate|].
  rewrite find_file_in_path_cons, walk_cons.
  destruct (negb (e_is_dir root_record)); [discriminate|].
  destruct (run_loop _ fuel 0) as [[[found|]|ex]|] eqn:R; try discriminate.
  exfalso. exact (run_loop_scan_no_match _ _ _ _ _ _ R).
Qed.

(** X5: on a path that is not empty, [find_file_in_path] returns [None]
    exactly when the root record is not a directory or the slice of the
    image its extent designates is empty; a directory with any byte in it
    ends in an exception or in no result at all. *)
Theorem find_file_in_path_not_found_iff (fuel : nat) (iso_data : bytes)
    (root_record : entry) (block_size : Z)
    (component : string) (rest : list string) :
  find_file_in_path (S fuel) iso_data root_record block_size
    (component :: rest) = Some (Ret None)
  <-> (e_is_dir root_record = false \/
       pyslice iso_data (e_extent root_record * block_size)
         (e_extent root_record * block_size + e_length root_record) = []).
Proof.
  split.
  - intros H. destruct (e_is_dir root_record) eqn:Hdir; [right | now left].
    rewrite find_file_in_path_cons, walk_cons, Hdir in H. cbn [negb] in H.
    destruct (pyslice iso_data _ _) as [|b dir] eqn:Hd; [reflexivity|].
    exfalso. rewrite <- Hd in H. set (dir_data := pyslice iso_data _ _) in *.
    destruct (pyindex_inside dir_data 0) as [v [Hv _]].
    { rewrite Hd, len_cons. pose proof (len_nonneg dir). lia. }
    destruct (Z.eq_dec v 0) as [-> | Hnz].
    + destruct (Z.eq_dec block_size 0) as [-> | Hbs].
      * rewrite (run_loop_raises_at_once _ _ _ _
                   (scan_step_zero_block_size _ component Hv)) in H.
        discriminate.
      * rewrite (run_loop_fixed_point _ _ _
                   (scan_step_stuck_at_start _ _ component Hbs Hv)) in H.
        discriminate.
    + rewrite (run_loop_raises_at_once _ _ _ _
                 (scan_step_first_record _ block_size component _ Hv Hnz))
        in H.
      discriminate.
  - intros [Hdir | Hempty].
    + now apply find_file_in_path_root_not_directory.
    + now apply find_file_in_path_empty_directory.
Qed.



(** X7: a zero byte read at an offset that is not a multiple of a positive
    [block_size] sends the scan to the next multiple of [block_size]. *)
Theorem scan_step_padding_skips_to_next_block (dir_data : bytes)
    (block_size : Z) (component : string) (offset : Z) :
  0 < block_size ->
  0 <= offset ->
  offset mod block_size <> 0 ->
  pyindex dir_data offset = Ret 0 ->
  exists next : Z,
    scan_step dir_data block_size component offset = Ret (Next next)
    /\ next mod block_size = 0
    /\ offset < next < offset + block_size.
Proof.
  intros Hbs Hoff Hmod Hz.
  exists (block_size * (offset / block_size + 1)).
  split; [now apply scan_step_padding_advances|].
  pose proof (Z.mod_pos_bound offset block_size Hbs).
  pose proof (Z.div_mod offset block_size ltac:(lia)).
  split; [|lia].
  rewrite Z.mul_comm. apply Z.mod_mul. lia.
Qed.

Lemma scan_step_padding_skips_to_next_block_witness :
  exists next : Z,
    scan_step [x22; x00; x00; x00] 2 "A" 1 = Ret (Next next)
    /\ next mod 2 = 0 /\ 1 < next < 1 + 2.
Proof.
  apply (scan_step_padding_skips_to_next_block [x22; x00; x00; x00] 2 "A" 1).
  - lia.
  - lia.
  - vm_compute. discriminate.
  - vm_compute. reflexivity.
Defined.



(** ** parse_iso9660_primary_volume_descriptor, on every input *)

Lemma run_loop_more_fuel {A : Type} (step : Z -> result (ctl A))
    (fuel : nat) :
  forall (fuel' : nat) (offset : Z) (r : result A),
    run_loop step fuel offset = Some r ->
    (fuel <= fuel')%nat ->
    run_loop step fuel' offset = Some r.
Proof.
  induction fuel as [|fuel IH]; intros fuel' offset r H Hle;
    [discriminate|].
  destruct fuel' as [|fuel']; [lia|]. cbn [run_loop] in *.
  destruct (step offset) as [[o'|a]|ex]; try exact H.
  apply IH; [exact H | lia].
Qed.

Lemma unpack_H_Ret (buf : bytes) (x : Z) :
  unpack_H buf = Ret x -> len buf = 2 /\ x = le_uint buf.
Proof.
  unfold unpack_H. destruct (len buf =? 2) eqn:E; [|discriminate].
  intros [= <-]. split; [lia | reflexivity].
Qed.

Lemma le_uint_u16 (buf : bytes) : len buf = 2 -> 0 <= le_uint buf < 65536.
Proof.
  destruct buf as [|a [|b [|c rest]]]; intros H;
    try (cbn in H; discriminate H).
  - cbn [le_uint fold_right].
    pose proof (byte_val_range a). pose proof (byte_val_range b). lia.
  - rewrite !len_cons in H. pose proof (len_nonneg rest). lia.
Qed.

Lemma pyslice_split {A : Type} (l : list A) (a b c : Z) :
  0 <= a <= b -> b <= c ->
  pyslice l a c = pyslice l a b ++ pyslice l b c.
Proof.
  intros Hab Hbc. unfold pyslice. rewrite !clamp_nonneg by lia.
  pose proof (len_nonneg l) as Hn.
  set (a' := Z.to_nat (Z.min a (len l))).
  set (b' := Z.to_nat (Z.min b (len l))).
  set (c' := Z.to_nat (Z.min c (len l))).
  assert (Ha : (a' <= b')%nat) by (subst a' b'; lia).
  assert (Hb : (b' <= c')%nat) by (subst b' c'; lia).
  assert (Hc : (c' <= List.length l)%nat) by (subst c'; unfold len in *; lia).
  replace (Z.to_nat (Z.min c (len l) - Z.min a (len l)))
    with ((b' - a') + (c' - b'))%nat by (subst a' b' c'; lia).
  replace (Z.to_nat (Z.min b (len l) - Z.min a (len l)))
    with (b' - a')%nat by (subst a' b'; lia).
  replace (Z.to_nat (Z.min c (len l) - Z.min b (len l)))
    with (c' - b')%nat by (subst b' c'; lia).
  rewrite <- (firstn_skipn (b' - a') (skipn a' l)) at 1.
  assert (Hl : List.length (firstn (b' - a') (skipn a' l)) = (b' - a')%nat).
  { rewrite length_firstn, length_skipn. lia. }
  rewrite <- Hl at 1. rewrite firstn_app_2.
  rewrite skipn_skipn. replace (b' - a' + a')%nat with b' by lia.
  reflexivity.
Qed.

Section DescriptorCases.
Variable iso_data : bytes.

Local Abbreviation sector_at offset :=
  (pyslice iso_data offset (offset + 2048)).

(** The sectors skipped before the [n]-th one cost one turn each. *)
Lemma pvd_loop_skip (n : nat) :
  forall (fuel : nat) (offset : Z),
    0 <= offset ->
    (forall j : nat, (j < n)%nat ->
       pyindex iso_data (offset + 2048 * Z.of_nat j) <> Ret 1 /\
       pyindex iso_data (offset + 2048 * Z.of_nat j) <> Ret 255) ->
    offset + 2048 * Z.of_nat n < len iso_data ->
    run_loop (pvd_step iso_data) (n + fuel) offset
    = run_loop (pvd_step iso_data) fuel (offset + 2048 * Z.of_nat n).
Proof.
  induction n as [|n IH]; intros fuel offset H0 Hskip Hin.
  - cbn [Nat.add]. f_equal. lia.
  - destruct (pyindex_inside iso_data offset) as [v [Hv _]]; [lia|].
    destruct (Hskip 0%nat ltac:(lia)) as [N1 N255].
    replace (offset + 2048 * Z.of_nat 0) with offset in * by lia.
    cbn [Nat.add run_loop].
    rewrite (pvd_step_skip iso_data offset v) by (congruence || lia).
    rewrite IH; [f_equal; lia | lia | | lia].
    intros j Hj.
    replace (offset + 2048 + 2048 * Z.of_nat j)
      with (offset + 2048 * Z.of_nat (S j)) by lia.
    apply Hskip. lia.
Qed.

(** The scan is decided by the first sector that is not skipped. *)
Lemma pvd_scan_decided_at (k : nat) :
  (forall j : nat, (j < k)%nat ->
     pyindex iso_data (0x8000 + 2048 * Z.of_nat j) <> Ret 1 /\
     pyindex iso_data (0x8000 + 2048 * Z.of_nat j) <> Ret 255) ->
  0x8000 + 2048 * Z.of_nat k < len iso_data ->
  parse_iso9660_primary_volume_descriptor iso_data
  = match pvd_step iso_data (0x8000 + 2048 * Z.of_nat k) with
    | Raise e => Some (Raise e)
    | Ret (Stop a) => Some (Ret a)
    | Ret (Next offset') =>
        run_loop (pvd_step iso_data) (List.length iso_data - k) offset'
    end.
Proof.
  intros Hskip Hin. unfold parse_iso9660_primary_volume_descriptor.
  replace (S (List.length iso_data))
    with (k + S (List.length iso_data - k))%nat
    by (unfold len in Hin; lia).
  rewrite pvd_loop_skip by (assumption || lia).
  reflexivity.
Qed.

(** A primary sector of which the image holds the first 190 bytes. *)
Lemma pvd_step_primary_190 (offset : Z) :
  0 <= offset ->
  offset + 190 <= len iso_data ->
  pyindex iso_data offset = Ret 1 ->
  forallb is_ascii (pyslice (sector_at offset) 8 72) = true ->
  pvd_step iso_data offset
  = Ret (Stop (Some (pyslice (sector_at offset) 156 190,
                     le_uint (pyslice (sector_at offset) 128 130)))).
Proof.
  intros H0 Hfull Htype Hids. unfold pvd_step.
  rewrite descriptor_type_code, Htype by lia. cbn [bind].
  change (1 =? 0) with false. change (1 =? 1) with true. cbv iota.
  assert (Hsec : 190 <= len (sector_at offset))
    by (rewrite len_pyslice, !clamp_nonneg by lia; lia).
  rewrite (pyslice_split _ 8 40 72), forallb_app in Hids by lia.
  apply andb_true_iff in Hids. destruct Hids as [Hsys Hvol].
  unfold decode_ascii. rewrite Hsys, Hvol. cbn [bind].
  unfold unpack_I, unpack_H.
  rewrite !len_pyslice_inside by lia.
  reflexivity.
Qed.

(** A primary sector cut off before its path table size. *)
Lemma pvd_step_truncated (offset : Z) :
  0 <= offset ->
  len iso_data < offset + 136 ->
  pyindex iso_data offset = Ret 1 ->
  forallb is_ascii (pyslice (sector_at offset) 8 72) = true ->
  pvd_step iso_data offset = Raise StructError.
Proof.
  intros H0 Hcut Htype Hids. unfold pvd_step.
  rewrite descriptor_type_code, Htype by lia. cbn [bind].
  change (1 =? 0) with false. change (1 =? 1) with true. cbv iota.
  assert (Hsec : 0 <= len (sector_at offset) < 136).
  { pose proof (len_nonneg iso_data).
    rewrite len_pyslice, !clamp_nonneg by lia. lia. }
  rewrite (pyslice_split _ 8 40 72), forallb_app in Hids by lia.
  apply andb_true_iff in Hids. destruct Hids as [Hsys Hvol].
  unfold decode_ascii. rewrite Hsys, Hvol. cbn [bind].
  unfold unpack_I, unpack_H.
  set (sec := sector_at offset) in *. clearbody sec.
  rewrite !len_pyslice, !clamp_nonneg by lia.
  set (n := len sec) in *.
  destruct (Z.max 0 (Z.min 84 n - Z.min 80 n) =? 4) eqn:E1;
    [cbn [bind] | reflexivity].
  destruct (Z.max 0 (Z.min 122 n - Z.min 120 n) =? 2) eqn:E2;
    [cbn [bind] | reflexivity].
  destruct (Z.max 0 (Z.min 126 n - Z.min 124 n) =? 2) eqn:E3;
    [cbn [bind] | reflexivity].
  destruct (Z.max 0 (Z.min 130 n - Z.min 128 n) =? 2) eqn:E4;
    [cbn [bind] | reflexivity].
  destruct (Z.max 0 (Z.min 136 n - Z.min 132 n) =? 4) eqn:E5;
    [lia | reflexivity].
Qed.

(** A primary sector with a byte of 0x80 or more in its identifiers. *)
Lemma pvd_step_non_ascii (offset : Z) :
  0 <= offset ->
  pyindex iso_data offset = Ret 1 ->
  forallb is_ascii (pyslice (sector_at offset) 8 72) = false ->
  pvd_step iso_data offset = Raise UnicodeDecodeError.
Proof.
  intros H0 Htype Hids. unfold pvd_step.
  rewrite descriptor_type_code, Htype by lia. cbn [bind].
  change (1 =? 0) with false. change (1 =? 1) with true. cbv iota.
  rewrite (pyslice_split _ 8 40 72), forallb_app in Hids by lia.
  unfold decode_ascii.
  destruct (forallb is_ascii (pyslice (sector_at offset) 8 40));
    [|reflexivity].
  cbn [andb] in Hids. rewrite Hids. reflexivity.
Qed.

(** What a turn that returns a record has read. *)
Lemma pvd_step_stop_some (offset : Z) (root : bytes) (block_size : Z) :
  0 <= offset ->
  pvd_step iso_data offset = Ret (Stop (Some (root, block_size))) ->
  pyindex iso_data offset = Ret 1
  /\ root = pyslice (sector_at offset) 156 190
  /\ block_size = le_uint (pyslice (sector_at offset) 128 130)
  /\ len (pyslice (sector_at offset) 128 130) = 2.
Proof.
  intros H0. unfold pvd_step. rewrite descriptor_type_code by lia.
  destruct (pyindex iso_data offset) as [v|ex] eqn:Hv; cbn [bind];
    [|discriminate].
  destruct (v =? 0); [discriminate|].
  destruct (v =? 1) eqn:E1.
  - destruct (decode_ascii _); cbn [bind]; [|discriminate].
    destruct (decode_ascii _); cbn [bind]; [|discriminate].
    destruct (unpack_I _); cbn [bind]; [|discriminate].
    destruct (unpack_H _); cbn [bind]; [|discriminate].
    destruct (unpack_H _); cbn [bind]; [|discriminate].
    destruct (unpack_H (pyslice _ 128 130)) as [bs|] eqn:Hbs; cbn [bind];
      [|discriminate].
    destruct (unpack_I _); cbn [bind]; [|discriminate].
    intros [= <- <-]. apply unpack_H_Ret in Hbs. destruct Hbs as [Hl ->].
    repeat split; try assumption. f_equal. lia.
  - destruct (v =? 255); discriminate.
Qed.

(** Where a scan that returns a value found it. *)
Lemma pvd_loop_stop_inv (fuel : nat) :
  forall (offset : Z) (a : option (bytes * Z)),
    0 <= offset ->
    run_loop (pvd_step iso_data) fuel offset = Some (Ret a) ->
    exists n : nat,
      pvd_step iso_data (offset + 2048 * Z.of_nat n) = Ret (Stop a).
Proof.
  induction fuel as [|fuel IH]; intros offset a H0 H; [discriminate|].
  cbn [run_loop] in H.
  destruct (pvd_step iso_data offset) as [[o'|a']|ex] eqn:Hstep.
  - destruct (pvd_step_next _ _ _ H0 Hstep) as [-> _].
    destruct (IH (offset + 2048) a ltac:(lia) H) as [n Hn].
    exists (S n).
    replace (offset + 2048 * Z.of_nat (S n))
      with (offset + 2048 + 2048 * Z.of_nat n) by lia.
    exact Hn.
  - injection H as <-. exists 0%nat.
    replace (offset + 2048 * Z.of_nat 0) with offset by lia. exact Hstep.
  - discriminate.
Qed.
End DescriptorCases.

(** X9: the [while True] loop of the descriptor scan always ends, in a
    return or in an exception, after at most one turn per 2048 bytes of
    image beyond 0x8000 and one more; and turns allowed beyond that bound
    change nothing. *)
Theorem pvd_scan_terminates (iso_data : bytes) :
  exists r : result (option (bytes * Z)),
    parse_iso9660_primary_volume_descriptor iso_data = Some r
    /\ forall fuel : nat,
         len iso_data <= 0x8000 + 2048 * Z.of_nat fuel ->
         run_loop (pvd_step iso_data) (S fuel) 0x8000 = Some r.
Proof.
  destruct (pvd_loop_total iso_data (List.length iso_data) 0x8000)
    as [r Hr]; [lia | unfold len; lia |].
  exists r. split; [exact Hr|].
  intros fuel Hfuel.
  destruct (pvd_loop_total iso_data fuel 0x8000) as [r' Hr']; [lia | lia |].
  destruct (Nat.le_ge_cases (S fuel) (S (List.length iso_data))) as [Hle | Hge].
  - pose proof (run_loop_more_fuel _ _ _ _ _ Hr' Hle) as H.
    rewrite Hr in H. injection H as <-. exact Hr'.
  - exact (run_loop_more_fuel _ _ _ _ _ Hr Hge).
Qed.

(** X10: whenever the scan returns a root record and a block size, they
    were read from a sector that starts with the byte 1 at a sector start
    0x8000 + 2048 * n; the block size is a 16-bit value and the root
    record has at most 34 bytes. *)
Theorem pvd_scan_result_sound (iso_data : bytes) (root : bytes)
    (block_size : Z) :
  parse_iso9660_primary_volume_descriptor iso_data
  = Some (Ret (Some (root, block_size))) ->
  exists n : nat,
    let sector :=
      pyslice iso_data (0x8000 + 2048 * Z.of_nat n)
        (0x8000 + 2048 * Z.of_nat n + 2048) in
    pyindex iso_data (0x8000 + 2048 * Z.of_nat n) = Ret 1
    /\ root = pyslice sector 156 190
    /\ block_size = le_uint (pyslice sector 128 130)
    /\ 0 <= block_size < 65536
    /\ len root <= 34.
Proof.
  intros H. unfold parse_iso9660_primary_volume_descriptor in H.
  destruct (pvd_loop_stop_inv iso_data _ 0x8000 _ ltac:(lia) H) as [n Hn].
  exists n. intros sector.
  destruct (pvd_step_stop_some iso_data (0x8000 + 2048 * Z.of_nat n)
              root block_size ltac:(lia) Hn)
    as [Htype [Hroot [Hbs Hlen]]].
  fold sector in Hroot, Hbs, Hlen.
  repeat split; try assumption.
  - rewrite Hbs. apply le_uint_u16. exact Hlen.
  - rewrite Hbs. apply le_uint_u16. exact Hlen.
  - rewrite Hroot, len_pyslice, !clamp_nonneg by lia. lia.
Qed.

Lemma pvd_scan_result_sound_witness :
  exists n : nat,
    let sector :=
      pyslice (volume_with (pvd_sector x20)) (0x8000 + 2048 * Z.of_nat n)
        (0x8000 + 2048 * Z.of_nat n + 2048) in
    pyindex (volume_with (pvd_sector x20)) (0x8000 + 2048 * Z.of_nat n)
    = Ret 1
    /\ rec_file_A = pyslice sector 156 190
    /\ 2048 = le_uint (pyslice sector 128 130)
    /\ 0 <= 2048 < 65536
    /\ len rec_file_A <= 34.
Proof.
  apply (pvd_scan_result_sound (volume_with (pvd_sector x20)) rec_file_A 2048).
  vm_compute. reflexivity.
Defined.

(** X11: sectors whose first byte is neither 1 nor 255 (boot records,
    supplementary descriptors, anything else) are skipped: when the [k]-th
    sector from 0x8000 is the first to start with 1, the image holds its
    first 190 bytes, and its identifier bytes at [8, 72) are ASCII, the scan
    returns that sector's bytes [156, 190) and the little-endian integer at
    its bytes [128, 130). *)
Theorem pvd_scan_skips_to_primary (iso_data : bytes) (k : nat) :
  let offset := 0x8000 + 2048 * Z.of_nat k in
  let sector := pyslice iso_data offset (offset + 2048) in
  (forall j : nat, (j < k)%nat ->
     pyindex iso_data (0x8000 + 2048 * Z.of_nat j) <> Ret 1 /\
     pyindex iso_data (0x8000 + 2048 * Z.of_nat j) <> Ret 255) ->
  pyindex iso_data offset = Ret 1 ->
  offset + 190 <= len iso_data ->
  forallb is_ascii (pyslice sector 8 72) = true ->
  parse_iso9660_primary_volume_descriptor iso_data
  = Some (Ret (Some (pyslice sector 156 190,
                     le_uint (pyslice sector 128 130)))).
Proof.
  intros offset sector Hskip Htype Hfull Hids.
  rewrite (pvd_scan_decided_at iso_data k Hskip) by (subst offset; lia).
  fold offset. rewrite pvd_step_primary_190; try assumption.
  - reflexivity.
  - subst offset. lia.
Qed.

Lemma pvd_scan_skips_to_primary_witness :
  parse_iso9660_primary_volume_descriptor volume_boot_then_primary
  = Some (Ret (Some (rec_file_A, 2048))).
Proof.
  refine (pvd_scan_skips_to_primary volume_boot_then_primary 1 _ _ _ _).
  - intros j Hj. assert (j = 0%nat) as -> by lia.
    vm_compute. split; discriminate.
  - vm_compute. reflexivity.
  - vm_compute. discriminate.
  - vm_compute. reflexivity.
Defined.

(** X12: when every sector start from 0x8000 up to the [k]-th holds neither
    1 nor 255, and the [k]-th sector starts with 1 but is cut off by the
    end of the image before its byte 136 (its identifier bytes, as far as
    they go, being ASCII), the scan raises struct.error: one of the
    [struct.unpack] calls is handed a slice that is too short. *)
Theorem pvd_scan_truncated_primary (iso_data : bytes) (k : nat) :
  let offset := 0x8000 + 2048 * Z.of_nat k in
  let sector := pyslice iso_data offset (offset + 2048) in
  (forall j : nat, (j < k)%nat ->
     pyindex iso_data (0x8000 + 2048 * Z.of_nat j) <> Ret 1 /\
     pyindex iso_data (0x8000 + 2048 * Z.of_nat j) <> Ret 255) ->
  pyindex iso_data offset = Ret 1 ->
  len iso_data < offset + 136 ->
  forallb is_ascii (pyslice sector 8 72) = true ->
  parse_iso9660_primary_volume_descriptor iso_data
  = Some (Raise StructError).
Proof.
  intros offset sector Hskip Htype Hcut Hids.
  assert (Hin : offset < len iso_data)
    by (eapply pyindex_Ret_inside; [subst offset; lia | exact Htype]).
  rewrite (pvd_scan_decided_at iso_data k Hskip) by exact Hin.
  fold offset. rewrite pvd_step_truncated; try assumption.
  - reflexivity.
  - subst offset. lia.
Qed.

Lemma pvd_scan_truncated_primary_witness :
  parse_iso9660_primary_volume_descriptor volume_cut_short
  = Some (Raise StructError).
Proof.
  refine (pvd_scan_truncated_primary volume_cut_short 0 _ _ _ _).
  - intros j Hj. lia.
  - vm_compute. reflexivity.
  - vm_compute. reflexivity.
  - vm_compute. reflexivity.
Defined.

(** X13: when every sector start from 0x8000 up to the [k]-th holds neither
    1 nor 255, and the [k]-th sector starts with 1 and has a byte of 0x80
    or more among its identifier bytes [8, 72), the scan raises
    UnicodeDecodeError and returns nothing, whatever the rest of the sector
    holds. *)
Theorem pvd_scan_non_ascii_identifier (iso_data : bytes) (k : nat)
    (b : byte) :
  let offset := 0x8000 + 2048 * Z.of_nat k in
  let sector := pyslice iso_data offset (offset + 2048) in
  (forall j : nat, (j < k)%nat ->
     pyindex iso_data (0x8000 + 2048 * Z.of_nat j) <> Ret 1 /\
     pyindex iso_data (0x8000 + 2048 * Z.of_nat j) <> Ret 255) ->
  pyindex iso_data offset = Ret 1 ->
  In b (pyslice sector 8 72) ->
  128 <= byte_val b ->
  parse_iso9660_primary_volume_descriptor iso_data
  = Some (Raise UnicodeDecodeError).
Proof.
  intros offset sector Hskip Htype Hin Hb.
  assert (Hoff : offset < len iso_data)
    by (eapply pyindex_Ret_inside; [subst offset; lia | exact Htype]).
  rewrite (pvd_scan_decided_at iso_data k Hskip) by exact Hoff.
  fold offset. rewrite pvd_step_non_ascii; try assumption.
  - reflexivity.
  - subst offset. lia.
  - fold sector. destruct (forallb is_ascii (pyslice sector 8 72)) eqn:E;
      [|reflexivity].
    rewrite forallb_forall in E. specialize (E b Hin).
    unfold is_ascii in E. lia.
Qed.

Lemma pvd_scan_non_ascii_identifier_witness :
  parse_iso9660_primary_volume_descriptor (volume_with (pvd_sector x80))
  = Some (Raise UnicodeDecodeError).
Proof.
  refine (pvd_scan_non_ascii_identifier
            (volume_with (pvd_sector x80)) 0 x80 _ _ _ _).
  - intros j Hj. lia.
  - vm_compute. reflexivity.
  - vm_compute. left. reflexivity.
  - vm_compute. discriminate.
Defined.

(** ** extract_file, inside the image *)



(** ** The signature scan, on every input *)

Lemma find_from_sound (pat l : bytes) :
  forall pos : Z,
    0 <= pos ->
    find_from l pat pos <> -1 ->
    exists pre post,
      l = pre ++ pat ++ post /\ find_from l pat pos = pos + len pre.
Proof.
  induction l as [|a l IH]; intros pos Hpos Hr; cbn [find_from] in *.
  - destruct (starts_with pat []) eqn:Hs; [|congruence].
    apply starts_with_iff in Hs. destruct Hs as [post Hs].
    exists [], post. split; [exact Hs | change (len (@nil byte)) with 0; lia].
  - destruct (starts_with pat (a :: l)) eqn:Hs.
    + apply starts_with_iff in Hs. destruct Hs as [post Hs].
      exists [], post. split; [exact Hs | change (len (@nil byte)) with 0; lia].
    + destruct (IH (pos + 1) ltac:(lia) Hr) as [pre [post [Hl Hf]]].
      exists (a :: pre), post. split; [cbn [app]; now rewrite <- Hl|].
      rewrite Hf, len_cons. lia.
Qed.

Lemma skipn_length_app {A : Type} (l1 l2 : list A) :
  skipn (List.length l1) (l1 ++ l2) = l2.
Proof. induction l1 as [|a l1 IH]; [reflexivity | exact IH]. Qed.

(** X15: whatever the image, a window returned by the signature scan is a
    contiguous piece of the image that starts with the four signature
    bytes, is at most [window_size] long, and is shorter than [window_size]
    only when it runs to the end of the image. *)
Theorem fallback_scan_sound (iso_data w : bytes) :
  main_fallback_scan iso_data = Some w ->
  exists pre post rest : bytes,
    iso_data = pre ++ w ++ rest
    /\ w = kernel_magic ++ post
    /\ len w <= window_size
    /\ (rest = [] \/ len w = window_size).
Proof.
  unfold main_fallback_scan, bytes_find. intros H.
  destruct (find_from iso_data kernel_magic 0 =? -1) eqn:E; [discriminate|].
  cbn [negb] in H. injection H as <-.
  destruct (find_from_sound kernel_magic iso_data 0 ltac:(lia) ltac:(lia))
    as [pre [post [Hiso Hf]]].
  rewrite Hf. replace (0 + len pre) with (len pre) by lia.
  pose proof (len_nonneg pre) as Hpre. pose proof (len_nonneg post) as Hpost.
  assert (Hw : window_size = 20971520) by reflexivity.
  assert (Hn : len iso_data = len pre + 4 + len post).
  { rewrite Hiso, !len_app. change (len kernel_magic) with 4. lia. }
  set (m := Z.to_nat (Z.min (len pre + window_size) (len iso_data) - len pre)).
  assert (Hslice : pyslice iso_data (len pre) (len pre + window_size)
                   = firstn m (kernel_magic ++ post)).
  { assert (Hskip : skipn (Z.to_nat (len pre)) iso_data = kernel_magic ++ post).
    { rewrite Hiso. unfold len. rewrite Nat2Z.id. apply skipn_length_app. }
    unfold pyslice. rewrite !clamp_nonneg by lia.
    rewrite (Z.min_l (len pre)) by lia. fold m.
    now rewrite Hskip. }
  rewrite Hslice.
  exists pre, (firstn (m - 4) post), (skipn m (kernel_magic ++ post)).
  split; [|split; [|split]].
  - rewrite firstn_skipn. exact Hiso.
  - rewrite firstn_app. change (List.length kernel_magic) with 4%nat.
    rewrite (firstn_all2 kernel_magic)
      by (change (List.length kernel_magic) with 4%nat; subst m; lia).
    reflexivity.
  - unfold len. rewrite length_firstn. subst m. lia.
  - destruct (Z_le_gt_dec (len pre + window_size) (len iso_data)) as [Hfull | Hend].
    + right. unfold len in *. rewrite length_firstn, length_app.
      change (List.length kernel_magic) with 4%nat. subst m. lia.
    + left. apply skipn_all2. unfold len in *. rewrite length_app.
      change (List.length kernel_magic) with 4%nat. subst m. lia.
Qed.

Lemma fallback_scan_sound_witness :
  exists pre post rest : bytes,
    image_magic = pre ++ (kernel_magic ++ [x01]) ++ rest
    /\ kernel_magic ++ [x01] = kernel_magic ++ post
    /\ len (kernel_magic ++ [x01]) <= window_size
    /\ (rest = [] \/ len (kernel_magic ++ [x01]) = window_size).
Proof.
  apply (fallback_scan_sound image_magic (kernel_magic ++ [x01])).
  vm_compute. reflexivity.
Defined.

(** ** main *)

(** With [None] for a root record, the first lookup subscripts [None]. *)
Lemma first_match_without_root (fuel : nat) (iso_data : bytes)
    (block_size : Z) :
  first_match fuel iso_data None block_size possible_paths
  = Some (MRaise TypeError).
Proof. reflexivity. Qed.

Lemma main_after_descriptor (fuel : nat) (iso_data : bytes) (fs : filesystem)
    (root_bytes : bytes) (block_size : Z) :
  parse_iso9660_primary_volume_descriptor iso_data
  = Some (Ret (Some (root_bytes, block_size))) ->
  main fuel iso_data fs
  = if len root_bytes =? 0 then Some (Exit 1, fs)
    else match parse_directory_record root_bytes with
         | Raise e => Some (Uncaught (Core e), fs)
         | Ret _ => Some (Uncaught TypeError, fs)
         end.
Proof.
  intros H. unfold main. rewrite H.
  destruct (len root_bytes =? 0); [reflexivity|].
  destruct (parse_directory_record root_bytes) as [[e|]|ex] eqn:P.
  - exfalso. exact (parse_directory_record_no_entry _ _ P).
  - now rewrite first_match_without_root.
  - reflexivity.
Qed.

(** X16: [main] extracts nothing, whatever the image: it always ends,
    either with [return 1] or with an uncaught exception, never with
    [return 0], and the files on disk are as they were before the call. *)
Theorem main_never_extracts (fuel : nat) (iso_data : bytes)
    (fs : filesystem) :
  exists o : outcome,
    main fuel iso_data fs = Some (o, fs)
    /\ (o = Exit 1 \/ exists e : main_exn, o = Uncaught e).
Proof.
  destruct (pvd_scan_total iso_data) as [[[[root bs]|]|ex] Hr].
  - rewrite (main_after_descriptor _ _ _ _ _ Hr).
    destruct (len root =? 0).
    + exists (Exit 1). split; [reflexivity | now left].
    + destruct (parse_directory_record root) as [x|ex].
      * exists (Uncaught TypeError). split; [reflexivity | right; eauto].
      * exists (Uncaught (Core ex)). split; [reflexivity | right; eauto].
  - unfold main. rewrite Hr. exists (Exit 1). split; [reflexivity | now left].
  - unfold main. rewrite Hr. exists (Uncaught (Core ex)).
    split; [reflexivity | right; eauto].
Qed.

(** [main] on a volume with a primary descriptor: it stops at
    [parse_directory_record(root_record)] or right after it. *)
Lemma main_at_primary (fuel : nat) (iso_data : bytes)
    (fs : filesystem) (k : nat) (v : Z) :
  let offset := 0x8000 + 2048 * Z.of_nat k in
  let sector := pyslice iso_data offset (offset + 2048) in
  (forall j : nat, (j < k)%nat ->
     pyindex iso_data (0x8000 + 2048 * Z.of_nat j) <> Ret 1 /\
     pyindex iso_data (0x8000 + 2048 * Z.of_nat j) <> Ret 255) ->
  pyindex iso_data offset = Ret 1 ->
  offset + 190 <= len iso_data ->
  forallb is_ascii (pyslice sector 8 72) = true ->
  pyindex sector 156 = Ret v ->
  main fuel iso_data fs
  = Some (Uncaught (if v =? 0 then TypeError else Core StructError), fs).
Proof.
  intros offset sector Hskip Htype Hfull Hids Hv.
  assert (Hparse : parse_iso9660_primary_volume_descriptor iso_data
                   = Some (Ret (Some (pyslice sector 156 190,
                                      le_uint (pyslice sector 128 130))))).
  { rewrite (pvd_scan_decided_at iso_data k Hskip) by (subst offset; lia).
    fold offset. rewrite pvd_step_primary_190; try assumption.
    - reflexivity.
    - subst offset. lia. }
  rewrite (main_after_descriptor _ _ _ _ _ Hparse).
  assert (Hsec : 190 <= len sector).
  { unfold sector. rewrite len_pyslice, !clamp_nonneg by (subst offset; lia).
    lia. }
  assert (Hlen : len (pyslice sector 156 190) = 34)
    by (rewrite len_pyslice_inside; lia).
  assert (Hfirst : pyindex (pyslice sector 156 190) 0 = Ret v)
    by (rewrite pyindex_pyslice_0 by lia; exact Hv).
  rewrite Hlen. change (34 =? 0) with false. cbv iota.
  destruct (v =? 0) eqn:Ev.
  - assert (v = 0) as -> by lia.
    replace (parse_directory_record (pyslice sector 156 190))
      with (@Ret (option entry) None); [reflexivity|].
    symmetry. unfold parse_directory_record. rewrite Hlen, Hfirst.
    reflexivity.
  - rewrite parse_directory_record_struct_error_gen; [reflexivity | lia |].
    rewrite Hfirst. intros [= ->]. discriminate.
Qed.


(** X17: on a volume where every sector start from 0x8000 up to the [k]-th
    holds neither 1 nor 255, and the [k]-th sector starts with 1 and is a
    primary descriptor held in full up to byte 190 with ASCII identifiers,
    [main] stops at [parse_directory_record(root_record)], before any path
    is looked up: with struct.error when the root record's first byte [v]
    is not zero, and, when it is zero, with TypeError at the first
    [find_file_in_path], which is handed [None] for a root record.  Nothing
    is written. *)
Theorem main_on_primary_volume (fuel : nat) (iso_data : bytes)
    (fs : filesystem) (k : nat) (v : Z) :
  let offset := 0x8000 + 2048 * Z.of_nat k in
  let sector := pyslice iso_data offset (offset + 2048) in
  (forall j : nat, (j < k)%nat ->
     pyindex iso_data (0x8000 + 2048 * Z.of_nat j) <> Ret 1 /\
     pyindex iso_data (0x8000 + 2048 * Z.of_nat j) <> Ret 255) ->
  pyindex iso_data offset = Ret 1 ->
  offset + 190 <= len iso_data ->
  forallb is_ascii (pyslice sector 8 72) = true ->
  pyindex sector 156 = Ret v ->
  main fuel iso_data fs
  = Some (Uncaught (if v =? 0 then TypeError else Core StructError), fs).
Proof.
  intros offset sector Hskip Htype Hfull Hids Hv.
  now apply (main_at_primary fuel iso_data fs k v).
Qed.

Lemma main_on_primary_volume_witness :
  main 0 (volume_with (pvd_sector x20)) empty_disk
  = Some (Uncaught (Core StructError), empty_disk).
Proof.
  refine (main_on_primary_volume
            0 (volume_with (pvd_sector x20)) empty_disk 0 34 _ _ _ _ _).
  - intros j Hj. lia.
  - vm_compute. reflexivity.
  - vm_compute. discriminate.
  - vm_compute. reflexivity.
  - vm_compute. reflexivity.
Defined.

(** C7 (as the code has it): on a volume that holds the signature, here
    right after the root record of its primary descriptor, [main] never
    gets to the signature scan.  The scan would return a window (the
    signature does occur), but [parse_directory_record(root_record)] raises
    struct.error first, on every disk and for every number of turns, and
    nothing is written. *)
Theorem fallback_scan_never_reached :
  (exists pre post : bytes, volume_with_magic = pre ++ kernel_magic ++ post)
  /\ main_fallback_scan volume_with_magic <> None
  /\ forall (fuel : nat) (fs : filesystem),
       main fuel volume_with_magic fs
       = Some (Uncaught (Core StructError), fs).
Proof.
  split; [|split].
  - exists (zeros 32768 ++ pvd_sector x20),
           (zeros (2048 - 194) ++ [xff] ++ zeros 2047).
    unfold volume_with_magic, volume_with.
    change (len (pvd_sector x20 ++ kernel_magic)) with 194.
    now rewrite <- !app_assoc.
  - vm_compute. discriminate.
  - intros fuel fs.
    refine (main_at_primary fuel volume_with_magic fs 0 34 _ _ _ _ _).
    + intros j Hj. lia.
    + vm_compute. reflexivity.
    + vm_compute. discriminate.
    + vm_compute. reflexivity.
    + vm_compute. reflexivity.
Qed.

(** X18: when a sector start holds 255 and no sector start before it holds
    1, [main] reports the missing descriptor with [return 1] and writes
    nothing. *)
Theorem main_without_primary_descriptor (fuel : nat) (iso_data : bytes)
    (fs : filesystem) (k : nat) :
  (forall j : nat, (j < k)%nat ->
     pyindex iso_data (0x8000 + 2048 * Z.of_nat j) <> Ret 1) ->
  pyindex iso_data (0x8000 + 2048 * Z.of_nat k) = Ret 255 ->
  main fuel iso_data fs = Some (Exit 1, fs).
Proof.
  intros Hnone Hterm.
  assert (Hin : 0x8000 + 2048 * Z.of_nat k < len iso_data)
    by (eapply pyindex_Ret_inside; [lia | exact Hterm]).
  unfold main, parse_iso9660_primary_volume_descriptor.
  rewrite (pvd_loop_terminator iso_data k);
    [reflexivity | lia | unfold len in Hin; lia | assumption | assumption].
Qed.

Lemma main_without_primary_descriptor_witness :
  main 0 (volume_with [x02]) empty_disk = Some (Exit 1, empty_disk).
Proof.
  apply (main_without_primary_descriptor 0 (volume_with [x02]) empty_disk 1).
  - intros j Hj. assert (j = 0%nat) as -> by lia. vm_compute. discriminate.
  - vm_compute. reflexivity.
Defined.

(** X19: an image too short to hold sector 16, or with neither 1 nor 255
    at any sector start, makes [main] end in an uncaught IndexError. *)
Theorem main_index_error (fuel : nat) (iso_data : bytes) (fs : filesystem) :
  (len iso_data < 0x8001 \/
   forall k : nat,
     pyindex iso_data (0x8000 + 2048 * Z.of_nat k) <> Ret 1 /\
     pyindex iso_data (0x8000 + 2048 * Z.of_nat k) <> Ret 255) ->
  main fuel iso_data fs = Some (Uncaught (Core IndexError), fs).
Proof.
  intros H.
  assert (Hnone : forall k : nat,
            pyindex iso_data (0x8000 + 2048 * Z.of_nat k) <> Ret 1 /\
            pyindex iso_data (0x8000 + 2048 * Z.of_nat k) <> Ret 255).
  { destruct H as [Hshort | Hall]; [|exact Hall].
    intros k. rewrite pyindex_past_end by lia. split; discriminate. }
  unfold main, parse_iso9660_primary_volume_descriptor.
  rewrite pvd_loop_runs_off; [reflexivity | lia | unfold len; lia | exact Hnone].
Qed.

Lemma main_index_error_witness :
  main 0 [] empty_disk = Some (Uncaught (Core IndexError), empty_disk).
Proof.
  apply (main_index_error 0 [] empty_disk). left. vm_compute. reflexivity.
Defined.

(** ** A primary descriptor cut off inside its root record *)

Lemma pvd_step_primary_136 (iso_data : bytes) (offset : Z) :
  let sector := pyslice iso_data offset (offset + 2048) in
  0 <= offset ->
  offset + 136 <= len iso_data ->
  pyindex iso_data offset = Ret 1 ->
  forallb is_ascii (pyslice sector 8 72) = true ->
  pvd_step iso_data offset
  = Ret (Stop (Some (pyslice sector 156 190,
                     le_uint (pyslice sector 128 130)))).
Proof.
  intros sector H0 Hfull Htype Hids. unfold pvd_step.
  rewrite descriptor_type_code, Htype by lia. cbn [bind].
  change (1 =? 0) with false. change (1 =? 1) with true. cbv iota.
  fold sector.
  assert (Hsec : 136 <= len sector)
    by (unfold sector; rewrite len_pyslice, !clamp_nonneg by lia; lia).
  rewrite (pyslice_split _ 8 40 72), forallb_app in Hids by lia.
  apply andb_true_iff in Hids. destruct Hids as [Hsys Hvol].
  unfold decode_ascii. rewrite Hsys, Hvol. cbn [bind].
  unfold unpack_I, unpack_H.
  rewrite !len_pyslice_inside by lia.
  reflexivity.
Qed.

(** X20: the scan checks the length of nothing after the path table size.
    When every sector start from 0x8000 up to the [k]-th holds neither 1
    nor 255, the [k]-th sector starts with 1 with ASCII identifiers, and
    the image ends between byte 136 and byte 190 of that sector, the scan
    still returns, with a root record made of the bytes that are there:
    fewer than 34, none at all when the image ends at or before the
    sector's byte 156. *)
Theorem pvd_scan_short_root_record (iso_data : bytes) (k : nat) :
  let offset := 0x8000 + 2048 * Z.of_nat k in
  let sector := pyslice iso_data offset (offset + 2048) in
  (forall j : nat, (j < k)%nat ->
     pyindex iso_data (0x8000 + 2048 * Z.of_nat j) <> Ret 1 /\
     pyindex iso_data (0x8000 + 2048 * Z.of_nat j) <> Ret 255) ->
  pyindex iso_data offset = Ret 1 ->
  offset + 136 <= len iso_data < offset + 190 ->
  forallb is_ascii (pyslice sector 8 72) = true ->
  parse_iso9660_primary_volume_descriptor iso_data
  = Some (Ret (Some (pyslice sector 156 190,
                     le_uint (pyslice sector 128 130))))
  /\ len (pyslice sector 156 190) = Z.max 0 (len iso_data - (offset + 156))
  /\ len (pyslice sector 156 190) < 34.
Proof.
  intros offset sector Hskip Htype Hcut Hids.
  assert (Hsec : len sector = len iso_data - offset).
  { unfold sector. rewrite len_pyslice, !clamp_nonneg by (subst offset; lia).
    lia. }
  assert (Hroot : len (pyslice sector 156 190)
                  = Z.max 0 (len iso_data - (offset + 156)))
    by (rewrite len_pyslice, !clamp_nonneg by lia; lia).
  split; [|split; [exact Hroot | lia]].
  rewrite (pvd_scan_decided_at iso_data k Hskip) by (subst offset; lia).
  fold offset. rewrite pvd_step_primary_136; try assumption.
  - reflexivity.
  - subst offset. lia.
  - lia.
Qed.

Lemma pvd_scan_short_root_record_witness :
  parse_iso9660_primary_volume_descriptor volume_cut_in_root
  = Some (Ret (Some ([x22; x00; x01; x00], 2048))).
Proof.
  refine (proj1 (pvd_scan_short_root_record volume_cut_in_root 0 _ _ _ _)).
  - intros j Hj. lia.
  - vm_compute. reflexivity.
  - vm_compute. split; [discriminate | reflexivity].
  - vm_compute. reflexivity.
Defined.
